(** * Wispy: the two Chatterbox text-to-speech command-line scripts

    A shallow embedding of [bin/chatterbox-tts.py] and
    [bin/run-chatterbox.py].  Both scripts are a straight line of calls
    into collaborators that are not part of the repository (the Python
    runtime, [torch], [chatterbox.tts], [torchaudio], the file system).
    The collaborators are a record of oracles over an abstract world state;
    the scripts are written in a small state-and-exception monad that
    records what was printed and every call that was made, with the world
    state the call saw and what it answered. *)

From Stdlib Require Import ZArith NArith String Ascii List Bool Lia.
From Stdlib Require Import DecimalString.
From Stdlib Require Import Floats.PrimFloat Uint63.
Import ListNotations.

Local Open Scope string_scope.
Local Open Scope list_scope.

Set Implicit Arguments.
Set Warnings "-inexact-float".

(** ** Python strings *)

(** A Python [str] is a sequence of Unicode code points: [len], slices
    and [+] count and join code points, whatever their encoding. *)
Definition char : Type := N.

Definition str : Type := list char.

(** A string literal of the source.  Every literal of the two scripts is
    ASCII, so a character of the literal is its own code point. *)
Definition lit (s : string) : str := map N_of_ascii (list_ascii_of_string s).

Fixpoint str_eqb (a b : str) : bool :=
  match a, b with
  | [], [] => true
  | x :: a', y :: b' => N.eqb x y && str_eqb a' b'
  | _, _ => false
  end.

(** [s.startswith(p)] *)
Fixpoint starts_with (p s : str) : bool :=
  match p, s with
  | [], _ => true
  | x :: p', y :: s' => N.eqb x y && starts_with p' s'
  | _ :: _, [] => false
  end.

(** [text[:n]]: the first [n] code points, all of them when there are
    fewer. *)
Definition prefix (n : nat) (s : str) : str := firstn n s.

(** A non-empty string is true. *)
Definition truthy (s : str) : bool :=
  match s with
  | [] => false
  | _ :: _ => true
  end.

(** [str(z)] of an integer: its decimal digits. *)
Definition str_of_int (z : Z) : str :=
  lit (NilZero.string_of_int (Z.to_int z)).

(** ** Python exceptions *)

(** The slice of the built-in hierarchy the scripts meet.  [Exception]
    and [KeyboardInterrupt] derive from [BaseException];
    [UnicodeEncodeError] derives from [UnicodeError], which derives from
    [ValueError]; the other classes derive from [Exception]. *)
Inductive exn_class : Type :=
| BaseException
| KeyboardInterrupt
| Exception
| MemoryError
| ValueError
| UnicodeError
| UnicodeEncodeError
| IndexError
| ImportError
| OSError
| RuntimeError.

Definition class_eqb (c d : exn_class) : bool :=
  match c, d with
  | BaseException, BaseException
  | KeyboardInterrupt, KeyboardInterrupt
  | Exception, Exception
  | MemoryError, MemoryError
  | ValueError, ValueError
  | UnicodeError, UnicodeError
  | UnicodeEncodeError, UnicodeEncodeError
  | IndexError, IndexError
  | ImportError, ImportError
  | OSError, OSError
  | RuntimeError, RuntimeError => true
  | _, _ => false
  end.

Definition base_class (c : exn_class) : option exn_class :=
  match c with
  | BaseException => None
  | KeyboardInterrupt | Exception => Some BaseException
  | UnicodeError => Some ValueError
  | UnicodeEncodeError => Some UnicodeError
  | MemoryError | ValueError | IndexError | ImportError | OSError
  | RuntimeError => Some Exception
  end.

(** [c] is [d] or reaches it in at most [depth] steps up. *)
Fixpoint subclass_within (depth : nat) (c d : exn_class) : bool :=
  class_eqb c d ||
  match depth with
  | O => false
  | S depth' =>
      match base_class c with
      | None => false
      | Some b => subclass_within depth' b d
      end
  end.

(** The hierarchy is four levels deep. *)
Definition issubclass (c d : exn_class) : bool := subclass_within 4 c d.

(** A raised exception: [SystemExit] (what [sys.exit] raises; it derives
    from [BaseException] only) or an error of some class with its message,
    the text [str(e)] gives. *)
Inductive exn : Type :=
| SystemExit (code : Z)
| Error (c : exn_class) (msg : str).

Definition isinstance (e : exn) (c : exn_class) : bool :=
  match e with
  | SystemExit _ => class_eqb c BaseException
  | Error c' _ => issubclass c' c
  end.

Definition str_of_exn (e : exn) : str :=
  match e with
  | SystemExit code => str_of_int code
  | Error _ msg => msg
  end.

(** ** The collaborators *)

Section Collaborators.

(** [St] is the state of everything outside the script (file system,
    loaded modules, memory); [Model] is the handle [from_pretrained]
    returns and [Wav] the waveform [generate] returns. *)
Variables St Model Wav : Type.

(** A call that may raise: it answers with an exception or a value and
    leaves a new world state. *)
Definition ext (R : Type) : Type := St -> (exn + R) * St.

Record World : Type := {
  (* the interpreter's pure built-ins *)
  py_float : str -> option float;          (* float(s); None is ValueError *)
  py_repr : str -> str;                    (* repr(s) *)
  py_str_float : float -> str;             (* str(x) of a float *)
  os_path_dirname : str -> str;
  (* sys.stdout: the characters beyond ASCII its codec encodes, and the
     message of the UnicodeEncodeError it raises on a line it cannot *)
  stdout_encodes : char -> bool;
  stdout_error : str -> str;
  (* calls with effects *)
  import_module : string -> ext unit;
  gc_collect : St -> St;
  torch_set_num_threads : Z -> ext unit;
  torch_cuda_is_available : ext bool;
  from_pretrained : string -> ext Model;
  generate : Model -> str -> float -> option float -> ext Wav;
  model_sr : Model -> Z;
  os_path_exists : St -> str -> bool;
  os_makedirs : str -> bool -> ext unit;
  torchaudio_save : str -> Wav -> Z -> ext unit;
  os_path_getsize : St -> str -> exn + Z
}.

(** What the script asked of a collaborator. *)
Inductive call : Type :=
| FilterWarnings (action : string)
| ImportModule (name : string)
| GcCollect
| SetNumThreads (n : Z)
| CudaIsAvailable
| FromPretrained (device : string)
| Generate (m : Model) (text : str) (exaggeration : float)
           (cfg_weight : option float)
| ModelSr (m : Model)
| PathExists (p : str)
| Makedirs (p : str) (exist_ok : bool)
| Save (p : str) (wav : Wav) (sample_rate : Z)
| Getsize (p : str).

Inductive value : Type :=
| VNone
| VBool (b : bool)
| VInt (z : Z)
| VModel (m : Model)
| VWav (a : Wav).

Inductive answer : Type :=
| Returned (v : value)
| Raised (e : exn).

(** One line of the call log: the world the call saw, the call, and the
    answer. *)
Record entry : Type := Entry {
  pre : St;
  what : call;
  ans : answer
}.

(** ** The process *)

Record proc : Type := Proc {
  world : St;
  stdout : list str;
  trace : list entry
}.

Inductive res (A : Type) : Type :=
| Normal (a : A)
| Throw (e : exn).
Arguments Throw {A} e.

Definition M (A : Type) : Type := proc -> res A * proc.

Definition ret {A} (a : A) : M A := fun p => (Normal a, p).

Definition bind {A B} (m : M A) (k : A -> M B) : M B :=
  fun p =>
    match m p with
    | (Normal a, p') => k a p'
    | (Throw e, p') => (Throw e, p')
    end.

Definition raise {A} (e : exn) : M A := fun p => (Throw e, p).

(** Whether [sys.stdout] can encode a character: every codec Python
    writes text with encodes ASCII; the rest is the codec's. *)
Definition encodable (w : World) (c : char) : bool :=
  (c <? 128)%N || stdout_encodes w c.

Definition can_print (w : World) (line : str) : bool :=
  forallb (encodable w) line.

(** [print(line)]: the line is encoded whole before anything is written,
    so a line with a character the codec cannot encode raises
    [UnicodeEncodeError] and prints nothing.  Stdout is taken to be open:
    writing the encoded line does not fail. *)
Definition print (w : World) (line : str) : M unit :=
  fun p =>
    if can_print w line
    then (Normal tt, Proc (world p) (stdout p ++ [line]) (trace p))
    else (Throw (Error UnicodeEncodeError (stdout_error w line)), p).

Definition sys_exit {A} (code : Z) : M A := raise (SystemExit code).

Definition log (p : proc) (s' : St) (c : call) (a : answer) : proc :=
  Proc s' (stdout p) (trace p ++ [Entry (world p) c a]).


(** A call to a collaborator, entered in the log with its answer. *)
Definition call_ext {R} (c : call) (inj : R -> value) (f : ext R) : M R :=
  fun p =>
    match f (world p) with
    | (inl e, s') => (Throw e, log p s' c (Raised e))
    | (inr x, s') => (Normal x, log p s' c (Returned (inj x)))
    end.

(** A call that cannot raise. *)
Definition call_total {R} (c : call) (inj : R -> value) (f : St -> R * St)
  : M R :=
  call_ext c inj (fun s => let '(x, s') := f s in (inr x, s')).

(** [except C as e: h e] clauses, tried in order; an exception no clause
    matches goes on up. *)
Fixpoint dispatch {A} (clauses : list (exn_class * (exn -> M A))) (e : exn)
  : M A :=
  match clauses with
  | [] => raise e
  | (c, h) :: rest => if isinstance e c then h e else dispatch rest e
  end.

Definition try_except {A} (body : M A)
           (clauses : list (exn_class * (exn -> M A))) : M A :=
  fun p =>
    match body p with
    | (Normal a, p') => (Normal a, p')
    | (Throw e, p') => dispatch clauses e p'
    end.

(** [sys.argv[i]] *)
Definition getitem (argv : list str) (i : nat) : M str :=
  match nth_error argv i with
  | Some s => ret s
  | None => raise (Error IndexError (lit "list index out of range"))
  end.

(** How the interpreter ends the process. *)
Inductive outcome : Type :=
| Exit (status : Z)          (* sys.exit(status), or 0 at the end of main *)
| Uncaught (e : exn).        (* traceback of an exception nobody caught *)

Record run : Type := Run {
  ended : outcome;
  printed : list str;
  calls : list entry;
  final : St
}.

Definition status_of (r : res unit) : outcome :=
  match r with
  | Normal _ => Exit 0
  | Throw (SystemExit code) => Exit code
  | Throw e => Uncaught e
  end.

Definition interpret (m : M unit) (s : St) : run :=
  let '(r, p) := m (Proc s [] []) in
  Run (status_of r) (stdout p) (trace p) (world p).

End Collaborators.

Arguments Throw {A} e.
Arguments Normal {A} a.
Arguments VNone {Model Wav}.
Arguments VBool {Model Wav} b.
Arguments VInt {Model Wav} z.
Arguments VModel {Model Wav} m.
Arguments VWav {Model Wav} a.
Arguments FilterWarnings {Model Wav} action.
Arguments ImportModule {Model Wav} name.
Arguments GcCollect {Model Wav}.
Arguments SetNumThreads {Model Wav} n.
Arguments CudaIsAvailable {Model Wav}.
Arguments FromPretrained {Model Wav} device.
Arguments Generate {Model Wav} m text exaggeration cfg_weight.
Arguments ModelSr {Model Wav} m.
Arguments PathExists {Model Wav} p.
Arguments Makedirs {Model Wav} p exist_ok.
Arguments Save {Model Wav} p wav sample_rate.
Arguments Getsize {Model Wav} p.
Arguments Returned {Model Wav} v.
Arguments Raised {Model Wav} e.

(** The status the process exits with.  An uncaught [Exception] makes the
    interpreter print the traceback and exit with status 1; what it does
    with an uncaught [KeyboardInterrupt] is the platform's. *)
Definition exit_status (o : outcome) : option Z :=
  match o with
  | Exit status => Some status
  | Uncaught e => if isinstance e Exception then Some 1%Z else None
  end.

Declare Scope py_scope.
Delimit Scope py_scope with py.
Notation "x <- c1 ;; c2" := (bind c1 (fun x => c2))
  (at level 61, c1 at next level, right associativity) : py_scope.
Notation "c1 ;; c2" := (bind c1 (fun _ => c2))
  (at level 61, right associativity) : py_scope.

(** ** The calls the scripts make *)

Section Calls.

Context {St Model Wav : Type} (w : World St Model Wav).

(** [float(s)] on a string: the parsed value or [ValueError]. *)
Definition float_of_str (s : str) : M St Model Wav float :=
  match py_float w s with
  | Some x => ret x
  | None =>
      raise (Error ValueError
               (lit "could not convert string to float: " ++ py_repr w s))
  end.

(** [warnings.filterwarnings(action)]: it only sets a filter inside the
    process. *)
Definition warnings_filterwarnings (action : string) : M St Model Wav unit :=
  call_total (FilterWarnings action) (fun _ => VNone) (fun s => (tt, s)).

(** [import name], and [from name import ...]. *)
Definition import (name : string) : M St Model Wav unit :=
  call_ext (ImportModule name) (fun _ => VNone) (import_module w name).

Definition gc_collect_now : M St Model Wav unit :=
  call_total GcCollect (fun _ => VNone) (fun s => (tt, gc_collect w s)).

Definition set_num_threads (n : Z) : M St Model Wav unit :=
  call_ext (SetNumThreads n) (fun _ => VNone) (torch_set_num_threads w n).

Definition cuda_is_available : M St Model Wav bool :=
  call_ext CudaIsAvailable VBool (torch_cuda_is_available w).

Definition ChatterboxTTS_from_pretrained (device : string)
  : M St Model Wav Model :=
  call_ext (FromPretrained device) VModel (from_pretrained w device).

Definition model_generate (m : Model) (text : str) (exaggeration : float)
           (cfg_weight : option float) : M St Model Wav Wav :=
  call_ext (Generate m text exaggeration cfg_weight) VWav
           (generate w m text exaggeration cfg_weight).

(** The attribute read [model.sr]. *)
Definition sr (m : Model) : M St Model Wav Z :=
  call_total (ModelSr m) VInt (fun s => (model_sr w m, s)).

Definition path_exists (p : str) : M St Model Wav bool :=
  call_total (PathExists p) VBool (fun s => (os_path_exists w s p, s)).

Definition makedirs (p : str) (exist_ok : bool) : M St Model Wav unit :=
  call_ext (Makedirs p exist_ok) (fun _ => VNone) (os_makedirs w p exist_ok).

Definition save (p : str) (wav : Wav) (sample_rate : Z)
  : M St Model Wav unit :=
  call_ext (Save p wav sample_rate) (fun _ => VNone)
           (torchaudio_save w p wav sample_rate).

Definition getsize (p : str) : M St Model Wav Z :=
  call_ext (Getsize p) VInt (fun s => (os_path_getsize w s p, s)).

End Calls.

Definition dquote : string := String (ascii_of_nat 34) EmptyString.

(** ** bin/chatterbox-tts.py *)

Module ChatterboxTts.
Section Script.

Context {St Model Wav : Type} (w : World St Model Wav).
Local Open Scope py_scope.

Definition usage : str :=
  lit ("Usage: python chatterbox-tts.py " ++ dquote ++ "text" ++ dquote ++
       " output.wav [exaggeration] [cfg]")%string.

Definition main (argv : list str) : M St Model Wav unit :=
  (if (length argv <? 3)%nat then
     print w usage ;;
     sys_exit 1
   else ret tt) ;;

  text <- getitem argv 1 ;;
  output_path <- getitem argv 2 ;;
  exaggeration <- (if (3 <? length argv)%nat
                   then a <- getitem argv 3 ;; float_of_str w a
                   else ret 0.5%float) ;;
  cfg <- (if (4 <? length argv)%nat
          then a <- getitem argv 4 ;; float_of_str w a
          else ret 0.5%float) ;;

  import w "warnings" ;;
  warnings_filterwarnings "ignore" ;;

  print w (lit "[Chatterbox] Generating speech...") ;;
  print w (lit "[Chatterbox] Text: " ++ prefix 50 text ++ lit "...") ;;
  print w (lit "[Chatterbox] Exaggeration: " ++ py_str_float w exaggeration ++
           lit ", CFG: " ++ py_str_float w cfg) ;;

  try_except
    (import w "torch" ;;
     import w "chatterbox.tts" ;;

     available <- cuda_is_available w ;;
     let device := if available : bool then "cuda" else "cpu" in
     print w (lit "[Chatterbox] Using device: " ++ lit device) ;;

     print w (lit "[Chatterbox] Loading model...") ;;
     model <- ChatterboxTTS_from_pretrained w device ;;

     print w (lit "[Chatterbox] Generating audio...") ;;
     wav <- model_generate w model text exaggeration (Some cfg) ;;

     import w "torchaudio" ;;

     let output_dir := os_path_dirname w output_path in
     (if truthy output_dir then
        there <- path_exists w output_dir ;;
        if negb there then makedirs w output_dir true else ret tt
      else ret tt) ;;

     rate <- sr w model ;;
     save w output_path wav rate ;;

     print w (lit "[Chatterbox] SUCCESS: " ++ output_path) ;;
     rate' <- sr w model ;;
     print w (lit "[Chatterbox] Sample rate: " ++ str_of_int rate'))
    [(Exception,
      fun e =>
        print w (lit "[Chatterbox] ERROR: " ++ str_of_exn e) ;;
        sys_exit 1)].

Definition exec (s : St) (argv : list str) : run St Model Wav :=
  interpret (main argv) s.

End Script.
End ChatterboxTts.

(** ** bin/run-chatterbox.py

    The module-level imports and [warnings.filterwarnings("ignore")] run
    before [main] and touch nothing [main] reads. *)

Module RunChatterbox.
Section Script.

Context {St Model Wav : Type} (w : World St Model Wav).
Local Open Scope py_scope.

Definition usage : str :=
  lit "Usage: python run-chatterbox.py <text> <output.wav> [exaggeration]".

Definition out_of_memory : str :=
  lit "[Chatterbox] ERROR: Out of memory. Close some applications and try again.".

Definition main (argv : list str) : M St Model Wav unit :=
  (if (length argv <? 3)%nat then
     print w usage ;;
     sys_exit 1
   else ret tt) ;;

  text <- getitem argv 1 ;;
  output_path <- getitem argv 2 ;;
  exaggeration <- (if (3 <? length argv)%nat
                   then a <- getitem argv 3 ;; float_of_str w a
                   else ret 0.5%float) ;;

  gc_collect_now w ;;

  print w (lit "[Chatterbox] Text: " ++ prefix 50 text ++ lit "...") ;;
  print w (lit "[Chatterbox] Output: " ++ output_path) ;;

  try_except
    (import w "torch" ;;

     set_num_threads w 2 ;;

     print w (lit "[Chatterbox] Loading model (this may take a moment)...") ;;

     import w "chatterbox.tts" ;;

     let device := "cpu" in
     model <- ChatterboxTTS_from_pretrained w device ;;

     print w (lit "[Chatterbox] Model loaded, generating audio...") ;;

     wav <- model_generate w model text exaggeration None ;;

     (* del model *)
     gc_collect_now w ;;

     import w "torchaudio" ;;
     let output_dir := os_path_dirname w output_path in
     makedirs w (if truthy output_dir then output_dir else lit ".") true ;;
     save w output_path wav 24000 ;;

     there <- path_exists w output_path ;;
     if there : bool then
       size <- getsize w output_path ;;
       print w (lit "[Chatterbox] SUCCESS! Saved " ++ str_of_int size ++
                lit " bytes to " ++ output_path) ;;
       sys_exit 0
     else
       print w (lit "[Chatterbox] ERROR: File not created") ;;
       sys_exit 1)
    [(MemoryError,
      fun _ =>
        print w out_of_memory ;;
        sys_exit 2);
     (Exception,
      fun e =>
        print w (lit "[Chatterbox] ERROR: " ++ str_of_exn e) ;;
        sys_exit 1)].

Definition exec (s : St) (argv : list str) : run St Model Wav :=
  interpret (main argv) s.

End Script.
End RunChatterbox.

(** ** A stub of the collaborators

    A small concrete world to run the scripts in: a file system of
    directory names and file sizes, a model that is its sample rate, a
    waveform that is the text it was made from.  What the stub does on the
    calls that can go wrong is set by a [behaviour]. *)

Module Stub.

Record fsys : Type := Fsys {
  dirs : list str;
  files : list (str * Z)
}.

Record behaviour : Type := Behaviour {
  cuda : bool;                      (* torch.cuda.is_available() *)
  reported_sr : Z;                  (* model.sr *)
  generate_raises : option exn;     (* what generate raises, if it does *)
  save_writes : bool;               (* whether save leaves a file *)
  encodes : char -> bool            (* what stdout encodes beyond ASCII *)
}.

Definition mem (p : str) (l : list str) : bool :=
  existsb (str_eqb p) l.

Definition exists_ (s : fsys) (p : str) : bool :=
  mem p (dirs s) || mem p (map fst (files s)).

Definition slash : char := 47%N.

Fixpoint drop_while (f : char -> bool) (l : str) : str :=
  match l with
  | [] => []
  | c :: rest => if f c then drop_while f rest else l
  end.

(** [posixpath.dirname]: everything up to the last slash, without
    trailing slashes unless it is slashes only. *)
Definition dirname (p : str) : str :=
  let is_slash c := N.eqb c slash in
  let head := drop_while (fun c => negb (is_slash c)) (rev p) in
  let stripped := drop_while is_slash head in
  rev (match stripped with [] => head | _ => stripped end).

(** The ancestors of [p], nearest first. *)
Fixpoint ancestors (fuel : nat) (p : str) : list str :=
  match fuel with
  | O => []
  | S fuel' =>
      let d := dirname p in
      if str_eqb d [] || str_eqb d p then [] else d :: ancestors fuel' d
  end.

Definition makedirs (p : str) (exist_ok : bool) (s : fsys)
  : (exn + unit) * fsys :=
  if mem p (map fst (files s)) then
    (inl (Error OSError (lit "File exists: " ++ p)), s)
  else if mem p (dirs s) then
    if exist_ok then (inr tt, s)
    else (inl (Error OSError (lit "File exists: " ++ p)), s)
  else
    (inr tt, Fsys (p :: ancestors (length p) p ++ dirs s) (files s)).

Definition parent (p : str) : str :=
  let d := dirname p in if str_eqb d [] then lit "." else d.

Definition save (b : behaviour) (p : str) (wav : str) (rate : Z)
           (s : fsys) : (exn + unit) * fsys :=
  if mem (parent p) (dirs s) then
    if save_writes b then
      (inr tt, Fsys (dirs s) ((p, (44 + 2 * Z.of_nat (length wav))%Z) :: files s))
    else (inr tt, s)
  else (inl (Error RuntimeError (lit "No such directory: " ++ parent p)), s).

Fixpoint lookup (p : str) (l : list (str * Z)) : option Z :=
  match l with
  | [] => None
  | (q, z) :: rest => if str_eqb p q then Some z else lookup p rest
  end.

Definition getsize (s : fsys) (p : str) : exn + Z :=
  match lookup p (files s) with
  | Some z => inr z
  | None => inl (Error OSError (lit "No such file: " ++ p))
  end.

Definition digit (c : char) : option Z :=
  if (48 <=? c)%N && (c <=? 57)%N then Some (Z.of_N c - 48)%Z else None.

(** Digits with at most one point: the digits as an integer and the
    number of digits after the point. *)
Fixpoint scan (l : str) (acc : Z) (after : option nat)
  : option (Z * nat) :=
  match l with
  | [] => Some (acc, match after with Some k => k | None => O end)
  | c :: rest =>
      if N.eqb c 46 then
        match after with
        | None => scan rest acc (Some O)
        | Some _ => None
        end
      else
        match digit c with
        | Some d => scan rest (10 * acc + d)%Z (option_map S after)
        | None => None
        end
  end.

(** [float(s)] for plain decimal literals short enough that one
    division of two exact doubles gives the nearest double. *)
Definition parse_float (s : str) : option float :=
  match s with
  | [] => None
  | l =>
      if existsb (fun c => match digit c with Some _ => true | None => false end) l
      then
        match scan l 0 None with
        | Some (n, k) =>
            if (n <? 2 ^ 53)%Z && (k <=? 18)%nat then
              Some (PrimFloat.div (PrimFloat.of_uint63 (Uint63.of_Z n))
                      (PrimFloat.of_uint63 (Uint63.of_Z (10 ^ Z.of_nat k))))
            else None
        | None => None
        end
      else None
  end.

(** [str(x)] for the few values the examples print. *)
Definition str_float (x : float) : str :=
  if PrimFloat.eqb x 0.5%float then lit "0.5"
  else if PrimFloat.eqb x 0.8%float then lit "0.8"
  else if PrimFloat.eqb x 0.3%float then lit "0.3"
  else lit "<float>".

Definition quote : str := lit "'".

Definition world (b : behaviour) : World fsys Z str := {|
  py_float := parse_float;
  py_repr := fun s => quote ++ s ++ quote;
  py_str_float := str_float;
  os_path_dirname := dirname;
  stdout_encodes := encodes b;
  stdout_error := fun _ => lit "codec can't encode characters";
  import_module := fun _ s => (inr tt, s);
  gc_collect := fun s => s;
  torch_set_num_threads := fun _ s => (inr tt, s);
  torch_cuda_is_available := fun s => (inr (cuda b), s);
  from_pretrained := fun device s =>
    if String.eqb device "cuda" && negb (cuda b)
    then (inl (Error RuntimeError (lit "no CUDA device")), s)
    else (inr (reported_sr b), s);
  generate := fun _ text _ _ s =>
    match generate_raises b with
    | Some e => (inl e, s)
    | None => (inr text, s)
    end;
  model_sr := fun m => m;
  os_path_exists := exists_;
  os_makedirs := makedirs;
  torchaudio_save := save b;
  os_path_getsize := getsize
|}.

(** A file system with the current directory and the root. *)
Definition init : fsys := Fsys [lit "."; lit "/"] [].

(** A stdout that encodes every character. *)
Definition utf8 : char -> bool := fun _ => true.

(** A stdout that encodes ASCII only. *)
Definition ascii_only : char -> bool := fun _ => false.

Definition well_behaved : behaviour := Behaviour false 24000 None true utf8.

End Stub.

(** * Properties *)

(** ** What the properties speak about *)

(** A handler that calls no collaborator: it leaves the call log and the
    world as they are. *)
Definition quiet {St Model Wav A : Type}
           (h : exn -> M St Model Wav A) : Prop :=
  forall e p,
    trace (snd (h e p)) = trace p /\ world (snd (h e p)) = world p.

(** What a script takes for the optional numeric argument at index [i] of
    [argv]: 0.5 when there is none, the parsed value otherwise. *)
Definition chosen {St Model Wav : Type} (w : World St Model Wav)
           (argv : list str) (i : nat) (x : float) : Prop :=
  match nth_error argv i with
  | None => x = 0.5%float
  | Some a => py_float w a = Some x
  end.






(** The [ValueError] that [float(a)] raises. *)
Definition float_error {St Model Wav : Type} (w : World St Model Wav)
           (a : str) : exn :=
  Error ValueError (lit "could not convert string to float: " ++ py_repr w a).

(** The [UnicodeEncodeError] that [print(line)] raises. *)
Definition encode_error {St Model Wav : Type} (w : World St Model Wav)
           (line : str) : exn :=
  Error UnicodeEncodeError (stdout_error w line).

(** A log without a call that touches the output: no [makedirs], no
    [save]. *)
Definition writes_nothing {St Model Wav : Type}
           (log : list (entry St Model Wav)) : Prop :=
  forall e,
    In e log ->
    (forall p b, what e <> Makedirs p b) /\
    (forall p a z, what e <> Save p a z).

(** The line the catch-all handler prints: [f"[Chatterbox] ERROR: {e}"]. *)
Definition error_line (e : exn) : str :=
  lit "[Chatterbox] ERROR: " ++ str_of_exn e.

(** No line of the catch-all handler among the printed lines. *)
Definition no_error_line (lines : list str) : Prop :=
  forall line,
    In line lines -> starts_with (lit "[Chatterbox] ERROR: ") line = false.

(** What the catch-all handler makes of [ex].  When stdout can take the
    error line, it is the last line printed and the run exits with status
    1.  When it cannot, the handler's own [print] raises: the run ends in
    that uncaught [UnicodeEncodeError], with no error line printed. *)
Definition reported_or_lost {St Model Wav : Type} (w : World St Model Wav)
           (ex : exn) (r : run St Model Wav) : Prop :=
  (can_print w (error_line ex) = true ->
   ended r = Exit 1 /\ last (printed r) [] = error_line ex) /\
  (can_print w (error_line ex) = false ->
   ended r = Uncaught (encode_error w (error_line ex)) /\
   no_error_line (printed r)).

(** [os.makedirs] does what it says: when it returns, the directory is
    there. *)
Definition makedirs_creates {St Model Wav : Type} (w : World St Model Wav)
  : Prop :=
  forall d ok s s',
    os_makedirs w d ok s = (inr tt, s') -> os_path_exists w s' d = true.

(** The line the second script prints once it has found and measured the
    file. *)
Definition success_line (size : Z) (p : str) : str :=
  lit "[Chatterbox] SUCCESS! Saved " ++ str_of_int size ++
  lit " bytes to " ++ p.

(** The line it prints when the file is not there. *)
Definition file_not_created : str :=
  lit "[Chatterbox] ERROR: File not created".

(** How many calls of a log satisfy [f]. *)
Definition count_calls {St Model Wav : Type} (f : call Model Wav -> bool)
           (log : list (entry St Model Wav)) : nat :=
  length (filter (fun e => f (what e)) log).

Definition is_from_pretrained {Model Wav : Type} (c : call Model Wav) : bool :=
  match c with FromPretrained _ => true | _ => false end.

Definition is_generate {Model Wav : Type} (c : call Model Wav) : bool :=
  match c with Generate _ _ _ _ => true | _ => false end.

Definition is_makedirs {Model Wav : Type} (c : call Model Wav) : bool :=
  match c with Makedirs _ _ => true | _ => false end.

Definition is_save {Model Wav : Type} (c : call Model Wav) : bool :=
  match c with Save _ _ _ => true | _ => false end.

(** The line both scripts print about the text: [f"[Chatterbox] Text:
    {text[:50]}..."]. *)
Definition text_line (text : str) : str :=
  lit "[Chatterbox] Text: " ++ firstn 50 text ++ lit "...".

(** The two lines the first script prints once [save] has returned. *)
Definition saved_line (p : str) : str := lit "[Chatterbox] SUCCESS: " ++ p.

Definition sample_rate_line (rate : Z) : str :=
  lit "[Chatterbox] Sample rate: " ++ str_of_int rate.

(** ** Stub worlds and invocations for the examples *)

(** A stub whose [generate] runs out of memory. *)
Definition out_of_memory_stub : Stub.behaviour :=
  Stub.Behaviour false 24000
    (Some (Error MemoryError (lit "cannot allocate 1048576 bytes"))) true
    Stub.utf8.

(** A stub whose [generate] fails with an ordinary error. *)
Definition failing_stub : Stub.behaviour :=
  Stub.Behaviour false 24000
    (Some (Error RuntimeError (lit "shape mismatch"))) true Stub.utf8.

(** A stub whose [save] returns without leaving a file. *)
Definition silent_save_stub : Stub.behaviour :=
  Stub.Behaviour false 24000 None false Stub.utf8.

(** A stub interrupted from the keyboard while it generates. *)
Definition interrupted_stub : Stub.behaviour :=
  Stub.Behaviour false 24000 (Some (Error KeyboardInterrupt [])) true
    Stub.utf8.

(** A stub with an accelerator and a model that reports 16000. *)
Definition cuda_stub : Stub.behaviour :=
  Stub.Behaviour true 16000 None true Stub.utf8.

(** A stub whose stdout encodes ASCII only. *)
Definition ascii_stdout_stub : Stub.behaviour :=
  Stub.Behaviour false 24000 None true Stub.ascii_only.

(** A stub whose stdout encodes ASCII only and whose [generate] fails
    with a message that is not ASCII. *)
Definition ascii_stdout_failing_stub : Stub.behaviour :=
  Stub.Behaviour false 24000
    (Some (Error RuntimeError (lit "shape mismatch " ++ [8364%N]))) true
    Stub.ascii_only.

(** The plain invocations of the examples. *)
Definition plain : list str :=
  [lit "run-chatterbox.py"; lit "hello"; lit "out.wav"].

Definition plain_1 : list str :=
  [lit "chatterbox-tts.py"; lit "hello"; lit "out.wav"].

(** An output path two directories down, neither of them there. *)
Definition nested : list str :=
  [lit "chatterbox.py"; lit "hello"; lit "out/x/a.wav"].

(** The stub's file system once [makedirs "out/x"] has returned. *)
Definition made : Stub.fsys :=
  Stub.Fsys [lit "out/x"; lit "out"; lit "."; lit "/"] [].

(** An output path with a character beyond ASCII (the euro sign). *)
Definition euro_path : str := lit "out" ++ [8364%N] ++ lit ".wav".

(** A text of 60 characters, and one with a euro sign. *)
Definition long_text : str :=
  lit "012345678901234567890123456789012345678901234567890123456789".

Definition euro_text : str := lit "5 " ++ [8364%N].

(** ** What stdout can take *)

(** A line goes through when its parts do. *)
Lemma can_print_app :
  forall (St Model Wav : Type) (w : World St Model Wav) (a b : str),
    can_print w (a ++ b) = can_print w a && can_print w b.
Proof. intros. unfold can_print. apply forallb_app. Qed.

Lemma digits_ascii :
  forall (St Model Wav : Type) (w : World St Model Wav) (d : Decimal.uint),
    can_print w (lit (NilEmpty.string_of_uint d)) = true.
Proof.
  intros St Model Wav w d.
  induction d; cbn [NilEmpty.string_of_uint]; try reflexivity;
    change (lit (String ?c ?s)) with (N_of_ascii c :: lit s);
    unfold can_print in *; cbn [forallb]; rewrite IHd; reflexivity.
Qed.

(** The decimal digits of an integer are ASCII: stdout takes them. *)
Lemma can_print_str_of_int :
  forall (St Model Wav : Type) (w : World St Model Wav) (z : Z),
    can_print w (str_of_int z) = true.
Proof.
  intros St Model Wav w z. unfold str_of_int.
  destruct (Z.to_int z) as [d|d]; cbn [NilZero.string_of_int].
  - unfold NilZero.string_of_uint.
    destruct d; try reflexivity; apply digits_ascii.
  - change (lit (String ?c ?s)) with (N_of_ascii c :: lit s).
    unfold can_print. cbn [forallb].
    change (forallb (encodable w) ?l) with (can_print w l).
    unfold NilZero.string_of_uint.
    destruct d; try reflexivity; rewrite digits_ascii; reflexivity.
Qed.

(** [can_print w line = true], from the parts of [line]: literals and
    integers are ASCII, and what was printed before can be printed again. *)
Ltac printable :=
  repeat first
    [ assumption
    | match goal with
      | |- can_print _ (str_of_int _) = true => apply can_print_str_of_int
      | |- can_print _ (lit (if ?b then _ else _)) = true =>
          destruct b; reflexivity
      | |- can_print _ (lit _) = true => reflexivity
      | |- can_print _ ?l = true => is_var l; reflexivity
      | |- can_print _ (_ ++ _) = true =>
          rewrite can_print_app; apply andb_true_intro; split
      | H : can_print _ (_ ++ _) = true |- _ =>
          rewrite can_print_app in H; apply andb_prop in H; destruct H
      end ].

(** A [print] that cannot fail, in the case where it did. *)
Ltac print_cannot_fail :=
  match goal with
  | H : can_print ?w ?l = false |- _ =>
      exfalso;
      assert (can_print w l = true) by printable;
      congruence
  end.

(** ** Handlers that only print and exit

    Neither script's [except] clauses call a collaborator, so the call log
    and the world of a run are those its [try] block left. *)

Lemma dispatch_quiet :
  forall (St Model Wav A : Type)
         (clauses : list (exn_class * (exn -> M St Model Wav A))),
    Forall (fun ch => quiet (snd ch)) clauses ->
    quiet (dispatch clauses).
Proof.
  intros St Model Wav A clauses H.
  induction H as [|[c h] rest Hh _ IH]; intros e p; cbn [dispatch].
  - split; reflexivity.
  - destruct (isinstance e c); [apply Hh | apply IH].
Qed.

Lemma dispatch_trace :
  forall (St Model Wav A : Type)
         (clauses : list (exn_class * (exn -> M St Model Wav A))) e p,
    Forall (fun ch => quiet (snd ch)) clauses ->
    trace (snd (dispatch clauses e p)) = trace p.
Proof. intros. apply dispatch_quiet; assumption. Qed.

(** Case analysis on what quiet clauses return: some result, in a process
    with the log and the world the [try] block left. *)
Lemma dispatch_cases :
  forall (St Model Wav A : Type)
         (clauses : list (exn_class * (exn -> M St Model Wav A)))
         (e : exn) (q : proc St Model Wav)
         (P : res A * proc St Model Wav -> Prop),
    Forall (fun ch => quiet (snd ch)) clauses ->
    (forall r p,
        dispatch clauses e q = (r, p) ->
        trace p = trace q ->
        world p = world q ->
        P (r, p)) ->
    P (dispatch clauses e q).
Proof.
  intros St Model Wav A clauses e q P Hq H.
  destruct (dispatch_quiet Hq e q) as [Ht Hw].
  destruct (dispatch clauses e q) as [r p] eqn:Hd.
  apply H; [reflexivity | exact Ht | exact Hw].
Qed.

(** ** The optional numeric arguments

    [float(sys.argv[i]) if len(sys.argv) > i else 0.5] gives the chosen
    value or raises the conversion's [ValueError]; it prints nothing and
    calls nothing. *)
Lemma optional_float_cases :
  forall (St Model Wav : Type) (w : World St Model Wav) (argv : list str)
         (i : nat),
    (exists x,
        chosen w argv i x /\
        forall p : proc St Model Wav,
          (if (i <? length argv)%nat
           then bind (getitem argv i) (fun a => float_of_str w a)
           else ret 0.5%float) p = (Normal x, p)) \/
    (exists a,
        nth_error argv i = Some a /\
        py_float w a = None /\
        forall p : proc St Model Wav,
          (if (i <? length argv)%nat
           then bind (getitem argv i) (fun a => float_of_str w a)
           else ret 0.5%float) p = (Throw (float_error w a), p)).
Proof.
  intros St Model Wav w argv i.
  unfold chosen, getitem, float_of_str, float_error.
  destruct (i <? length argv)%nat eqn:Hi.
  - apply Nat.ltb_lt in Hi.
    destruct (nth_error argv i) as [a|] eqn:Ha;
      [|apply nth_error_None in Ha; lia].
    destruct (py_float w a) as [x|] eqn:Hx.
    + left. exists x. split; [reflexivity|].
      intros p. cbv beta iota delta [bind ret]. rewrite Hx. reflexivity.
    + right. exists a. repeat split; try reflexivity; try assumption.
      intros p. cbv beta iota delta [bind ret]. rewrite Hx. reflexivity.
  - apply Nat.ltb_ge in Hi.
    destruct (nth_error argv i) as [a|] eqn:Ha.
    + assert (nth_error argv i <> None) as Hn by congruence.
      apply nth_error_Some in Hn. lia.
    + left. exists 0.5%float. split; reflexivity.
Qed.

(** ** Running a script symbolically

    A run is named and unfolded to the chain of oracle answers it depends
    on, and each answer is split into its cases in the order the script
    asks.  The literals of the printed lines are named first, so that the
    state carried through the cases stays small.  The [except] clauses are
    left folded until a proof needs what they print or how they exit. *)

Ltac name_lines :=
  repeat match goal with
  | |- context [print _ ?l] =>
      lazymatch l with
      | lit _ => let line := fresh "line" in set (line := l) in *
      | lit ?a ++ _ =>
          let line := fresh "line" in set (line := lit a) in *
      end
  end.

Ltac unfold_script :=
  cbv beta iota zeta delta
    [ChatterboxTts.exec ChatterboxTts.main RunChatterbox.exec
     RunChatterbox.main interpret try_except bind ret raise sys_exit
     print call_ext call_total log getitem float_of_str
     warnings_filterwarnings import gc_collect_now set_num_threads
     cuda_is_available ChatterboxTTS_from_pretrained model_generate sr
     path_exists makedirs save getsize];
  cbn [world stdout trace fst snd app Datatypes.length nth_error Nat.ltb
       Nat.leb negb ended printed calls final status_of].

Ltac case_pair t :=
  case t; let r := fresh "r" in intros r; case r; clear r.

Ltac case_unit :=
  let u := fresh "u" in intros u; case u; clear u.

(** The next answer, split into its cases, with its equation.  Only the
    [print] and the test the run has come to are split (their branches
    are closed terms then).  A [print] of ASCII, or of what was printed
    before, has one case. *)
Ltac ask :=
  match goal with
  | Hp : forall p, ?parse p = _ |- _ =>
      is_var parse;
      match goal with
      | |- context [parse ?p0] => rewrite (Hp p0); clear Hp
      end
  | |- context [py_float ?w ?a] =>
      destruct (py_float w a) eqn:?
  | |- context [if can_print ?w ?l then ?a else ?b] =>
      first [ change (can_print w l) with true
            | destruct (can_print w l) eqn:?; [|try print_cannot_fail] ]
  | |- context [import_module ?w ?n ?s] =>
      case_pair (import_module w n s); [intros ? ?|case_unit; intros ?]
  | |- context [torch_set_num_threads ?w ?n ?s] =>
      case_pair (torch_set_num_threads w n s);
      [intros ? ?|case_unit; intros ?]
  | |- context [torch_cuda_is_available ?w ?s] =>
      destruct (torch_cuda_is_available w s) as [[?|?] ?] eqn:?
  | |- context [from_pretrained ?w ?d ?s] =>
      destruct (from_pretrained w d s) as [[?|?] ?] eqn:?
  | |- context [generate ?w ?m ?t ?x ?c ?s] =>
      destruct (generate w m t x c s) as [[?|?] ?] eqn:?
  | |- context [if truthy ?d then ?a else ?b] =>
      destruct (truthy d) eqn:?
  | |- context [if negb (os_path_exists ?w ?s ?p) then _ else _] =>
      destruct (os_path_exists w s p) eqn:?
  | |- context [if os_path_exists ?w ?s ?p then _ else _] =>
      destruct (os_path_exists w s p) eqn:?
  | |- context [os_makedirs ?w ?p ?b ?s] =>
      destruct (os_makedirs w p b s) as [[?|[]] ?] eqn:?
  | |- context [torchaudio_save ?w ?p ?a ?r ?s] =>
      destruct (torchaudio_save w p a r s) as [[?|[]] ?] eqn:?
  | |- context [match os_path_getsize ?w ?s ?p with _ => _ end] =>
      destruct (os_path_getsize w s p) as [?|?] eqn:?
  end;
  unfold_script.

Ltac quiet_clauses :=
  repeat first [apply Forall_nil | apply Forall_cons];
  intros ? ?;
  cbv beta iota zeta delta [snd bind print sys_exit raise];
  try match goal with
      | |- context [can_print ?w ?l] => destruct (can_print w l)
      end;
  split; reflexivity.

(** A run whose [try] block raised: the clauses stay folded, their result
    is named, and the log is the one the block left. *)
Ltac past_handlers :=
  try match goal with
  | |- context [dispatch ?cl ?e ?q] =>
      pattern (dispatch cl e q); apply dispatch_cases; [quiet_clauses|];
      let r := fresh "raised" in
      let p := fresh "after" in
      let Hd := fresh "Hhandled" in
      let Ht := fresh "Hlog" in
      intros r p Hd Ht _; cbn [trace] in Ht
  end;
  cbv beta iota; intros ->; cbn [calls ended printed final];
  try match goal with
  | Ht : trace _ = _ |- _ => rewrite ?Ht; clear Ht
  end.

Ltac name_run :=
  let r := fresh "r" in
  let Hr := fresh "Hr" in
  match goal with
  | |- context [ChatterboxTts.exec ?w ?s ?argv] =>
      remember (ChatterboxTts.exec w s argv) as r eqn:Hr
  | |- context [RunChatterbox.exec ?w ?s ?argv] =>
      remember (RunChatterbox.exec w s argv) as r eqn:Hr
  end;
  revert Hr.

(** The outcome of an optional numeric argument, once for all the ways
    the argument list can go on. *)
Ltac name_parses w :=
  repeat match goal with
  | |- context [if (?i <? length ?l)%nat
                then bind (getitem ?l ?i) _ else ret _] =>
      let Hc := fresh "Hchosen" in
      let Hp := fresh "Hparse" in
      let Ha := fresh "Harg" in
      let Hb := fresh "Hbad" in
      destruct (optional_float_cases w l i)
        as [(?x & Hc & Hp)|(?a & Ha & Hb & Hp)];
      match type of Hp with
      | forall p, ?E p = _ =>
          let parse := fresh "parse" in set (parse := E) in *
      end
  end.

Ltac open_script :=
  name_run;
  cbv beta delta [ChatterboxTts.exec ChatterboxTts.main RunChatterbox.exec
                  RunChatterbox.main];
  match goal with
  | |- context [print ?w _] => name_parses w
  end;
  name_lines; unfold_script.

Ltac symbolic_run := open_script; repeat ask; past_handlers.

(** What the [except] clauses do with the exception: the named result is
    computed, clause by clause, with the cases of the handler's own
    [print]. *)
Ltac handlers :=
  try match goal with
  | Hd : dispatch _ _ _ = (_, _) |- _ =>
      cbv beta iota zeta delta
        [dispatch bind ret raise sys_exit print world stdout trace] in Hd;
      cbn [isinstance issubclass subclass_within base_class class_eqb orb
           app] in Hd;
      repeat (match type of Hd with
              | context [if isinstance ?e ?c then _ else _] =>
                  destruct (isinstance e c) eqn:?
              | context [if can_print ?w ?l then _ else _] =>
                  first [ change (can_print w l) with true in Hd
                        | destruct (can_print w l) eqn:? ]
              end;
              cbv beta iota in Hd);
      injection Hd as <- <-
  end;
  cbn [status_of stdout trace world];
  try match goal with
  | |- context [match ?e with SystemExit _ => _ | Error _ _ => _ end] =>
      is_var e; destruct e as [?|? ?]
  end.

(** The first elements of the argument list, as far as a script looks. *)
Ltac split_argv argv :=
  destruct argv as [|?prog [|?text [|?out [|?a3 [|?a4 ?more]]]]].

(** The argument list without or with its two mandatory arguments. *)
Ltac by_arguments argv :=
  destruct argv as [|?prog [|?text [|?out ?rest]]].

(** The argument list as far as the second script looks. *)
Ltac split_argv_2 argv :=
  destruct argv as [|?prog [|?text [|?out [|?a3 ?more]]]].

(** A property of every entry of a computed log, entry by entry. *)
Lemma each_entry :
  forall (A : Type) (P : A -> Prop) (l : list A),
    Forall P l -> forall e, In e l -> P e.
Proof. intros A P l H. apply Forall_forall. exact H. Qed.

Ltac each tac :=
  match goal with
  | |- forall e, In e ?l -> @?P e =>
      refine (@each_entry _ P l _);
      repeat first [apply Forall_nil | apply Forall_cons];
      cbv beta; tac
  end.

(** Picks an entry out of a computed log. *)
Ltac find_entry :=
  vm_compute; repeat (first [left; reflexivity | right]); try reflexivity.

(** A given entry in a computed log. *)
Ltac in_log H :=
  cbn [In] in H;
  repeat (destruct H as [H|H]);
  try contradiction;
  try discriminate H;
  try (injection H as; subst).

(** Answers of [isinstance] that cannot all be true. *)
Ltac instance_clash :=
  exfalso;
  repeat match goal with
         | H : isinstance _ _ = _ |- _ => revert H
         end;
  cbn [isinstance issubclass subclass_within base_class class_eqb orb];
  intros; congruence.

(** Answers of [isinstance] about an error of an unknown class that no
    class gives. *)
Ltac class_clash :=
  exfalso;
  match goal with
  | H : isinstance (Error ?c _) _ = _ |- _ =>
      is_var c;
      repeat match goal with
             | H' : isinstance _ _ = _ |- _ => revert H'
             end;
      case c;
      cbn [isinstance issubclass subclass_within base_class class_eqb orb];
      intros; congruence
  end.

(** Where an entry can sit in a log that starts with [x]: at its head, or
    further down. *)
Lemma log_cons_split :
  forall (A : Type) (x : A) (xs l1 : list A) (e : A) (l2 : list A),
    x :: xs = l1 ++ e :: l2 ->
    (l1 = [] /\ x = e /\ xs = l2) \/
    (exists l1', l1 = x :: l1' /\ xs = l1' ++ e :: l2).
Proof.
  intros A x xs [|y l1] e l2 H; cbn [app] in H; injection H as -> ->.
  - left. repeat split.
  - right. exists l1. split; reflexivity.
Qed.

(** An empty log holds no entry. *)
Lemma log_nil_split :
  forall (A : Type) (l1 : list A) (e : A) (l2 : list A),
    [] = l1 ++ e :: l2 -> False.
Proof. intros A [|y l1] e l2 H; discriminate H. Qed.

(** Only the empty string is false. *)
Lemma truthy_false :
  forall d, truthy d = false -> d = [].
Proof. intros [|c d] H; [reflexivity | discriminate H]. Qed.

(** A non-empty string is true. *)
Lemma truthy_true :
  forall d, truthy d = true -> d <> [].
Proof. intros d H ->. discriminate H. Qed.

(** Every way a given call can sit in a computed log. *)
Ltac split_log H :=
  repeat match type of H with
  | [] = _ ++ _ :: _ => exfalso; exact (@log_nil_split _ _ _ _ H)
  | _ :: _ = _ ++ _ :: _ =>
      apply log_cons_split in H;
      destruct H as [(-> & H0 & H)|(? & -> & H)];
      [first [discriminate H0 | injection H0 as; subst]|]
  end.

Ltac pick_entry := cbn [In]; auto 20.

(** A given line among the computed printed lines. *)
Ltac printed_line H :=
  cbn [In] in H; repeat (destruct H as [H|H]); try contradiction; subst.

(** Two answers to the same question. *)
Ltac same_answer :=
  match goal with
  | H1 : ?x = _, H2 : ?x = _ |- _ =>
      rewrite H1 in H2; first [discriminate H2 | injection H2 as <-]
  end.

(** ** Missing arguments *)

(** C1. With fewer than two positional arguments ([len(sys.argv) < 3])
    either script prints its usage line and exits with status 1, and its
    call log is empty: no module is imported and [from_pretrained] is not
    called. *)
Theorem missing_arguments_usage_exit_1 :
  forall (St Model Wav : Type) (w : World St Model Wav) (s : St)
         (argv : list str),
    (length argv < 3)%nat ->
    ChatterboxTts.exec w s argv
      = Run (Exit 1) [ChatterboxTts.usage] [] s /\
    RunChatterbox.exec w s argv
      = Run (Exit 1) [RunChatterbox.usage] [] s.
Proof.
  intros St Model Wav w s argv Hlen.
  split_argv argv; simpl in Hlen; try lia; split; reflexivity.
Qed.

Lemma missing_arguments_usage_exit_1_witness :
  ChatterboxTts.exec (Stub.world Stub.well_behaved) Stub.init
      [lit "run-chatterbox.py"; lit "hello"]
    = Run (Exit 1) [ChatterboxTts.usage] [] Stub.init /\
  RunChatterbox.exec (Stub.world Stub.well_behaved) Stub.init
      [lit "run-chatterbox.py"; lit "hello"]
    = Run (Exit 1) [RunChatterbox.usage] [] Stub.init.
Proof.
  apply (@missing_arguments_usage_exit_1 _ _ _ (Stub.world Stub.well_behaved)
           Stub.init [lit "run-chatterbox.py"; lit "hello"]).
  simpl. lia.
Defined.

(** ** The tuning values *)





(** ** Device and sample rate *)







(** ** Malformed numbers *)

(** C6. When an optional numeric argument is there and is not a float
    literal, the run ends in the uncaught [ValueError] of the conversion:
    nothing has been printed (so no error line of the handler) and no call
    has been made (so no model was loaded).  In the first script the fifth
    element of [argv] is converted after the fourth, and the error is that
    of the first one that fails. *)
Theorem malformed_number_uncaught :
  forall (St Model Wav : Type) (w : World St Model Wav) (s : St)
         (argv : list str),
    (forall a,
        nth_error argv 3 = Some a ->
        py_float w a = None ->
        ChatterboxTts.exec w s argv
          = Run (Uncaught (float_error w a)) [] [] s /\
        RunChatterbox.exec w s argv
          = Run (Uncaught (float_error w a)) [] [] s) /\
    (forall b,
        nth_error argv 4 = Some b ->
        py_float w b = None ->
        exists a,
          py_float w a = None /\
          ChatterboxTts.exec w s argv
            = Run (Uncaught (float_error w a)) [] [] s).
Proof.
  intros St Model Wav w s argv.
  split.
  - intros a Ha Hbad.
    split_argv argv; cbn [nth_error] in Ha; try discriminate Ha;
      injection Ha as ->;
      unfold ChatterboxTts.exec, RunChatterbox.exec, ChatterboxTts.main,
        RunChatterbox.main, float_error;
      unfold_script; rewrite Hbad; split; reflexivity.
  - intros b Hb Hbad.
    split_argv argv; cbn [nth_error] in Hb; try discriminate Hb.
    injection Hb as ->.
    destruct (py_float w a3) as [x|] eqn:H3.
    + exists b. split; [exact Hbad|].
      unfold ChatterboxTts.exec, ChatterboxTts.main, float_error.
      unfold_script. rewrite H3, Hbad. reflexivity.
    + exists a3. split; [exact H3|].
      unfold ChatterboxTts.exec, ChatterboxTts.main, float_error.
      unfold_script. rewrite H3. reflexivity.
Qed.

Lemma malformed_number_uncaught_witness :
  ChatterboxTts.exec (Stub.world Stub.well_behaved) Stub.init
      [lit "chatterbox-tts.py"; lit "hello"; lit "out.wav"; lit "loud"]
    = Run (Uncaught (float_error (Stub.world Stub.well_behaved) (lit "loud")))
          [] [] Stub.init /\
  RunChatterbox.exec (Stub.world Stub.well_behaved) Stub.init
      [lit "chatterbox-tts.py"; lit "hello"; lit "out.wav"; lit "loud"]
    = Run (Uncaught (float_error (Stub.world Stub.well_behaved) (lit "loud")))
          [] [] Stub.init.
Proof.
  apply (proj1 (@malformed_number_uncaught _ _ _
                  (Stub.world Stub.well_behaved) Stub.init
                  [lit "chatterbox-tts.py"; lit "hello"; lit "out.wav";
                   lit "loud"]));
    reflexivity.
Defined.

(** ** Extra arguments *)

(** C10. A run of the first script depends on the first five elements of
    [argv] only, and a run of the second on the first four: two argument
    lists that agree there give the same run (the same exit, the same
    printed lines, the same calls with the same answers, the same final
    world). *)
Theorem extra_arguments_ignored :
  forall (St Model Wav : Type) (w : World St Model Wav) (s : St)
         (argv argv' : list str),
    (firstn 5 argv = firstn 5 argv' ->
     ChatterboxTts.exec w s argv = ChatterboxTts.exec w s argv') /\
    (firstn 4 argv = firstn 4 argv' ->
     RunChatterbox.exec w s argv = RunChatterbox.exec w s argv').
Proof.
  intros St Model Wav w s argv argv'.
  split; intros H.
  - split_argv argv; split_argv argv'; cbn [firstn] in H;
      try discriminate H; try (injection H as; subst); reflexivity.
  - split_argv_2 argv; split_argv_2 argv'; cbn [firstn] in H;
      try discriminate H; try (injection H as; subst); reflexivity.
Qed.

Lemma extra_arguments_ignored_witness :
  ChatterboxTts.exec (Stub.world Stub.well_behaved) Stub.init
      [lit "chatterbox-tts.py"; lit "hello"; lit "out.wav"; lit "0.8";
       lit "0.3"; lit "extra"]
    = ChatterboxTts.exec (Stub.world Stub.well_behaved) Stub.init
        [lit "chatterbox-tts.py"; lit "hello"; lit "out.wav"; lit "0.8";
         lit "0.3"] /\
  RunChatterbox.exec (Stub.world Stub.well_behaved) Stub.init
      [lit "run-chatterbox.py"; lit "hello"; lit "out.wav"; lit "0.8";
       lit "0.3"]
    = RunChatterbox.exec (Stub.world Stub.well_behaved) Stub.init
        [lit "run-chatterbox.py"; lit "hello"; lit "out.wav"; lit "0.8"].
Proof.
  split.
  - apply (proj1 (@extra_arguments_ignored _ _ _
                    (Stub.world Stub.well_behaved) Stub.init
                    [lit "chatterbox-tts.py"; lit "hello"; lit "out.wav";
                     lit "0.8"; lit "0.3"; lit "extra"]
                    [lit "chatterbox-tts.py"; lit "hello"; lit "out.wav";
                     lit "0.8"; lit "0.3"])).
    reflexivity.
  - apply (proj2 (@extra_arguments_ignored _ _ _
                    (Stub.world Stub.well_behaved) Stub.init
                    [lit "run-chatterbox.py"; lit "hello"; lit "out.wav";
                     lit "0.8"; lit "0.3"]
                    [lit "run-chatterbox.py"; lit "hello"; lit "out.wav";
                     lit "0.8"])).
    reflexivity.
Defined.

(** ** Failures and exit codes *)

(** An entry that is neither a [makedirs] nor a [save] call. *)
Ltac writes_nothing_here :=
  cbv beta delta [not]; cbn [what];
  split; intros; match goal with H : _ = _ |- _ => discriminate H end.

(** Two different answers to whether the same line can be printed. *)
Ltac print_clash :=
  match goal with
  | H : can_print ?w ?l = true, Hc : can_print ?w ?l' = false |- _ =>
      exfalso;
      change (can_print w l = false) in Hc;
      rewrite H in Hc; discriminate Hc
  end.

(** None of the computed printed lines is an error line. *)
Ltac no_error_lines :=
  cbv beta delta [no_error_line];
  let Hin := fresh in
  intros ? Hin; printed_line Hin; vm_compute; reflexivity.

(** What the catch-all handler made of the exception, in each case of its
    own [print]. *)
Ltac report :=
  cbv beta delta [reported_or_lost error_line encode_error];
  split; intros ?;
  first [ print_clash
        | split; [reflexivity|]; first [reflexivity | no_error_lines] ].

(** C4, as the code has it.  When [generate] raises an [Exception], no
    [makedirs] and no [save] call is made in the run.  The first script
    hands the exception to its catch-all handler: if stdout can take the
    error line with the exception's message, that line is the last one
    printed and the run exits with status 1; if it cannot, the handler's
    [print] raises and the run ends in that uncaught [UnicodeEncodeError]
    with no error line printed.  The second script does the same unless
    the exception is a [MemoryError]: then it exits with status 2 and its
    last line is the fixed out-of-memory line. *)
Theorem generate_failure_reported :
  forall (St Model Wav : Type) (w : World St Model Wav) (s : St)
         (argv : list str) (s' : St) (m : Model) (t : str)
         (x : float) (c : option float) (ex : exn),
    isinstance ex Exception = true ->
    (In (Entry s' (Generate m t x c) (Raised ex))
        (calls (ChatterboxTts.exec w s argv)) ->
     writes_nothing (calls (ChatterboxTts.exec w s argv)) /\
     reported_or_lost w ex (ChatterboxTts.exec w s argv)) /\
    (In (Entry s' (Generate m t x c) (Raised ex))
        (calls (RunChatterbox.exec w s argv)) ->
     writes_nothing (calls (RunChatterbox.exec w s argv)) /\
     if isinstance ex MemoryError
     then ended (RunChatterbox.exec w s argv) = Exit 2 /\
          last (printed (RunChatterbox.exec w s argv)) []
            = RunChatterbox.out_of_memory
     else reported_or_lost w ex (RunChatterbox.exec w s argv)).
Proof.
  intros St Model Wav w s argv s' m t x c ex Hex.
  split.
  - by_arguments argv; symbolic_run; intros H; in_log H;
      handlers; try instance_clash;
      (split; [unfold writes_nothing; each writes_nothing_here | report]).
  - by_arguments argv; symbolic_run; intros H; in_log H;
      handlers; try instance_clash;
      (split; [unfold writes_nothing; each writes_nothing_here|]);
      first [split; reflexivity | report].
Qed.

(** C4 as stated fails: in the second script a [generate] that raises
    [MemoryError] ends the run with status 2, not 1, and the last line is
    the fixed out-of-memory line. *)
Lemma generate_failure_exit_1_counterexample :
  In (Entry Stub.init (Generate 24000%Z (lit "hello") 0.5%float None)
            (Raised (Error MemoryError (lit "cannot allocate 1048576 bytes"))))
     (calls (RunChatterbox.exec (Stub.world out_of_memory_stub) Stub.init
               plain)) /\
  ended (RunChatterbox.exec (Stub.world out_of_memory_stub) Stub.init plain)
    = Exit 2 /\
  ended (RunChatterbox.exec (Stub.world out_of_memory_stub) Stub.init plain)
    <> Exit 1 /\
  printed (RunChatterbox.exec (Stub.world out_of_memory_stub) Stub.init plain)
    = [lit "[Chatterbox] Text: hello...";
       lit "[Chatterbox] Output: out.wav";
       lit "[Chatterbox] Loading model (this may take a moment)...";
       lit "[Chatterbox] Model loaded, generating audio...";
       lit "[Chatterbox] ERROR: Out of memory. Close some applications and try again."].
Proof.
  split; [find_entry|].
  split; [reflexivity|].
  split; [vm_compute; discriminate | reflexivity].
Qed.

Lemma generate_failure_reported_witness :
  (writes_nothing
     (calls (ChatterboxTts.exec (Stub.world failing_stub) Stub.init plain_1)) /\
   ended (ChatterboxTts.exec (Stub.world failing_stub) Stub.init plain_1)
     = Exit 1 /\
   last (printed (ChatterboxTts.exec (Stub.world failing_stub) Stub.init
                    plain_1)) []
     = lit "[Chatterbox] ERROR: shape mismatch") /\
  (writes_nothing
     (calls (RunChatterbox.exec (Stub.world out_of_memory_stub) Stub.init
               plain)) /\
   ended (RunChatterbox.exec (Stub.world out_of_memory_stub) Stub.init plain)
     = Exit 2 /\
   last (printed (RunChatterbox.exec (Stub.world out_of_memory_stub) Stub.init
                    plain)) []
     = RunChatterbox.out_of_memory) /\
  (ended (RunChatterbox.exec (Stub.world ascii_stdout_failing_stub) Stub.init
            plain)
     = Uncaught (encode_error (Stub.world ascii_stdout_failing_stub)
                   (error_line (Error RuntimeError
                                  (lit "shape mismatch " ++ [8364%N])))) /\
   no_error_line
     (printed (RunChatterbox.exec (Stub.world ascii_stdout_failing_stub)
                 Stub.init plain))).
Proof.
  split; [|split].
  - destruct (proj1 (@generate_failure_reported _ _ _
                       (Stub.world failing_stub) Stub.init plain_1
                       Stub.init 24000%Z (lit "hello") 0.5%float
                       (Some 0.5%float)
                       (Error RuntimeError (lit "shape mismatch")) eq_refl))
      as [Hw [Hok _]].
    + find_entry.
    + split; [exact Hw | exact (Hok eq_refl)].
  - apply (proj2 (@generate_failure_reported _ _ _
                    (Stub.world out_of_memory_stub) Stub.init plain
                    Stub.init 24000%Z (lit "hello") 0.5%float None
                    (Error MemoryError (lit "cannot allocate 1048576 bytes"))
                    eq_refl)).
    find_entry.
  - destruct (proj2 (@generate_failure_reported _ _ _
                       (Stub.world ascii_stdout_failing_stub) Stub.init plain
                       Stub.init 24000%Z (lit "hello") 0.5%float None
                       (Error RuntimeError (lit "shape mismatch " ++ [8364%N]))
                       eq_refl))
      as [_ [_ Hlost]].
    + find_entry.
    + exact (Hlost eq_refl).
Defined.

(** The exit status, computed. *)
Ltac status :=
  cbn [exit_status status_of];
  first
    [ reflexivity
    | match goal with
      | H : isinstance ?e ?c = _ |- context [isinstance ?e ?c] =>
          rewrite H; reflexivity
      end
    | cbn [isinstance issubclass subclass_within base_class class_eqb orb];
      reflexivity ].

(** C5. The exit codes.  Missing arguments give 1 in both scripts.  In the
    first script any [Exception] a collaborator raises gives 1, a
    [MemoryError] included, and after a [save] that returned the status is
    0 if stdout can take the success line and 1 if it cannot.  In the
    second script a [MemoryError] a collaborator raises gives 2, any other
    [Exception] gives 1, a file found and measured after the [save] gives
    0, and a file not found gives 1. *)
Theorem exit_code_mapping :
  forall (St Model Wav : Type) (w : World St Model Wav) (s : St)
         (argv : list str),
    ((length argv < 3)%nat ->
     ended (ChatterboxTts.exec w s argv) = Exit 1 /\
     ended (RunChatterbox.exec w s argv) = Exit 1) /\
    ((forall s' c ex,
         In (Entry s' c (Raised ex)) (calls (ChatterboxTts.exec w s argv)) ->
         isinstance ex Exception = true ->
         exit_status (ended (ChatterboxTts.exec w s argv)) = Some 1%Z) /\
     (forall s' c msg,
         In (Entry s' c (Raised (Error MemoryError msg)))
            (calls (ChatterboxTts.exec w s argv)) ->
         exit_status (ended (ChatterboxTts.exec w s argv)) = Some 1%Z) /\
     (forall s' p a z v,
         In (Entry s' (Save p a z) (Returned v))
            (calls (ChatterboxTts.exec w s argv)) ->
         (can_print w (saved_line p) = true ->
          ended (ChatterboxTts.exec w s argv) = Exit 0) /\
         (can_print w (saved_line p) = false ->
          exit_status (ended (ChatterboxTts.exec w s argv)) = Some 1%Z))) /\
    ((forall s' c ex,
         In (Entry s' c (Raised ex)) (calls (RunChatterbox.exec w s argv)) ->
         isinstance ex MemoryError = true ->
         ended (RunChatterbox.exec w s argv) = Exit 2) /\
     (forall s' c ex,
         In (Entry s' c (Raised ex)) (calls (RunChatterbox.exec w s argv)) ->
         isinstance ex Exception = true ->
         isinstance ex MemoryError = false ->
         exit_status (ended (RunChatterbox.exec w s argv)) = Some 1%Z) /\
     (forall s' p v,
         In (Entry s' (Getsize p) (Returned v))
            (calls (RunChatterbox.exec w s argv)) ->
         ended (RunChatterbox.exec w s argv) = Exit 0) /\
     (forall s' p,
         In (Entry s' (PathExists p) (Returned (VBool false)))
            (calls (RunChatterbox.exec w s argv)) ->
         ended (RunChatterbox.exec w s argv) = Exit 1)).
Proof.
  intros St Model Wav w s argv.
  split; [|split].
  - intros Hlen.
    split_argv argv; simpl in Hlen; try lia; split; reflexivity.
  - by_arguments argv; symbolic_run;
      repeat match goal with |- _ /\ _ => split end; intros;
      match goal with H : In _ _ |- _ => in_log H end;
      repeat match goal with |- _ /\ _ => split end; intros;
      unfold saved_line in *; try print_clash;
      handlers; try instance_clash; status.
  - by_arguments argv; symbolic_run;
      repeat match goal with |- _ /\ _ => split end; intros;
      match goal with H : In _ _ |- _ => in_log H end;
      handlers; try instance_clash; status.
Qed.

Lemma exit_code_mapping_witness :
  (ended (ChatterboxTts.exec (Stub.world Stub.well_behaved) Stub.init
            [lit "chatterbox-tts.py"; lit "hello"]) = Exit 1 /\
   ended (RunChatterbox.exec (Stub.world Stub.well_behaved) Stub.init
            [lit "chatterbox-tts.py"; lit "hello"]) = Exit 1) /\
  exit_status (ended (ChatterboxTts.exec (Stub.world out_of_memory_stub)
                        Stub.init plain_1)) = Some 1%Z /\
  ended (ChatterboxTts.exec (Stub.world Stub.well_behaved) Stub.init plain_1)
    = Exit 0 /\
  exit_status (ended (ChatterboxTts.exec (Stub.world ascii_stdout_stub)
                        Stub.init
                        [lit "chatterbox-tts.py"; lit "hello"; euro_path]))
    = Some 1%Z /\
  ended (RunChatterbox.exec (Stub.world out_of_memory_stub) Stub.init plain)
    = Exit 2 /\
  exit_status (ended (RunChatterbox.exec (Stub.world failing_stub) Stub.init
                        plain)) = Some 1%Z /\
  ended (RunChatterbox.exec (Stub.world Stub.well_behaved) Stub.init plain)
    = Exit 0 /\
  ended (RunChatterbox.exec (Stub.world silent_save_stub) Stub.init plain)
    = Exit 1.
Proof.
  split.
  { apply (proj1 (@exit_code_mapping _ _ _ (Stub.world Stub.well_behaved)
                    Stub.init [lit "chatterbox-tts.py"; lit "hello"])).
    simpl. lia. }
  split.
  { apply (proj1 (proj2 (proj1 (proj2 (@exit_code_mapping _ _ _
             (Stub.world out_of_memory_stub) Stub.init plain_1))))
           Stub.init
           (Generate 24000%Z (lit "hello") 0.5%float (Some 0.5%float))
           (lit "cannot allocate 1048576 bytes")).
    find_entry. }
  split.
  { refine (proj1 (proj2 (proj2 (proj1 (proj2 (@exit_code_mapping _ _ _
             (Stub.world Stub.well_behaved) Stub.init plain_1))))
           Stub.init (lit "out.wav") (lit "hello") 24000%Z VNone _) eq_refl).
    find_entry. }
  split.
  { refine (proj2 (proj2 (proj2 (proj1 (proj2 (@exit_code_mapping _ _ _
             (Stub.world ascii_stdout_stub) Stub.init
             [lit "chatterbox-tts.py"; lit "hello"; euro_path]))))
           Stub.init euro_path (lit "hello") 24000%Z VNone _) eq_refl).
    find_entry. }
  split.
  { apply (proj1 (proj2 (proj2 (@exit_code_mapping _ _ _
             (Stub.world out_of_memory_stub) Stub.init plain)))
           Stub.init (Generate 24000%Z (lit "hello") 0.5%float None)
           (Error MemoryError (lit "cannot allocate 1048576 bytes"))).
    - find_entry.
    - reflexivity. }
  split.
  { apply (proj1 (proj2 (proj2 (proj2 (@exit_code_mapping _ _ _
             (Stub.world failing_stub) Stub.init plain))))
           Stub.init (Generate 24000%Z (lit "hello") 0.5%float None)
           (Error RuntimeError (lit "shape mismatch"))).
    - find_entry.
    - reflexivity.
    - reflexivity. }
  split.
  { apply (proj1 (proj2 (proj2 (proj2 (proj2 (@exit_code_mapping _ _ _
             (Stub.world Stub.well_behaved) Stub.init plain)))))
           (Stub.Fsys [lit "."; lit "/"] [(lit "out.wav", 54%Z)])
           (lit "out.wav") (VInt 54)).
    find_entry. }
  { apply (proj2 (proj2 (proj2 (proj2 (proj2 (@exit_code_mapping _ _ _
             (Stub.world silent_save_stub) Stub.init plain)))))
           Stub.init (lit "out.wav")).
    find_entry. }
Defined.

(** ** The directory of the output *)

(** The directory is there when [save] is called: the check found it, or
    [makedirs] returned. *)
Ltac dir_exists :=
  first
    [ eassumption
    | match goal with
      | Hmk : makedirs_creates _, H : os_makedirs _ _ _ _ = (inr tt, _) |- _ =>
          exact (Hmk _ _ _ _ H)
      end ].

(** An empty directory name is excluded. *)
Ltac no_dirname :=
  match goal with
  | Hd : _ <> [], Ht : truthy _ = false |- _ =>
      exfalso; exact (Hd (@truthy_false _ Ht))
  end.

(** C7.  Take [os.makedirs] at its word (when it returns, the directory
    is there) and an output path with a directory part.  In the first
    script a check that finds the directory missing is followed at once by
    [makedirs] on it with [exist_ok=True]; every [save] call is given the
    output path, finds the directory there, and comes after the [makedirs]
    that any failed check asked for.  In the second script the import of
    [torchaudio] is followed at once by [makedirs] on the directory with
    [exist_ok=True], whether it is there or not; every [save] call is
    given the output path, comes after a [makedirs] that returned, and
    finds the directory there. *)
Theorem parent_directory_created_before_save :
  forall (St Model Wav : Type) (w : World St Model Wav) (s : St)
         (argv : list str) (out : str),
    makedirs_creates w ->
    nth_error argv 2 = Some out ->
    os_path_dirname w out <> [] ->
    ((forall l1 s_chk p l2,
         calls (ChatterboxTts.exec w s argv)
           = l1 ++ Entry s_chk (PathExists p) (Returned (VBool false)) :: l2 ->
         p = os_path_dirname w out /\
         exists r l3,
           l2 = Entry s_chk (Makedirs (os_path_dirname w out) true) r :: l3) /\
     (forall l1 s_sv p a z r l2,
         calls (ChatterboxTts.exec w s argv)
           = l1 ++ Entry s_sv (Save p a z) r :: l2 ->
         p = out /\
         os_path_exists w s_sv (os_path_dirname w out) = true /\
         (forall s_chk,
             In (Entry s_chk (PathExists (os_path_dirname w out))
                       (Returned (VBool false))) l1 ->
             In (Entry s_chk (Makedirs (os_path_dirname w out) true)
                       (Returned VNone)) l1))) /\
    ((forall l1 s_i l2,
         calls (RunChatterbox.exec w s argv)
           = l1 ++ Entry s_i (ImportModule "torchaudio") (Returned VNone)
                :: l2 ->
         exists s_mk r l3,
           l2 = Entry s_mk (Makedirs (os_path_dirname w out) true) r :: l3) /\
     (forall l1 s_sv p a z r l2,
         calls (RunChatterbox.exec w s argv)
           = l1 ++ Entry s_sv (Save p a z) r :: l2 ->
         p = out /\
         os_path_exists w s_sv (os_path_dirname w out) = true /\
         exists s_mk,
           In (Entry s_mk (Makedirs (os_path_dirname w out) true)
                     (Returned VNone)) l1)).
Proof.
  intros St Model Wav w s argv out Hmk Hout Hdir.
  split.
  - by_arguments argv; cbn [nth_error] in Hout; try discriminate Hout;
      injection Hout as ->;
      symbolic_run; try no_dirname; split.
    all: (intros; match goal with H : _ = _ ++ _ :: _ |- _ => split_log H end).
    all: first
      [ split; [reflexivity | eexists _, _; reflexivity]
      | split; [reflexivity|]; split; [dir_exists|];
        let Hin := fresh in
        intros ? Hin; in_log Hin; pick_entry ].
  - by_arguments argv; cbn [nth_error] in Hout; try discriminate Hout;
      injection Hout as ->;
      symbolic_run; try no_dirname; split.
    all: (intros; match goal with H : _ = _ ++ _ :: _ |- _ => split_log H end).
    all: first
      [ eexists _, _, _; reflexivity
      | split; [reflexivity|]; split; [dir_exists|];
        eexists; pick_entry ].
Qed.

Lemma str_eqb_refl : forall a : str, str_eqb a a = true.
Proof.
  induction a as [|c a IH]; cbn [str_eqb]; [reflexivity|].
  rewrite N.eqb_refl, IH. reflexivity.
Qed.

(** The stub's [makedirs] keeps the contract. *)
Lemma stub_makedirs_creates :
  forall b, makedirs_creates (Stub.world b).
Proof.
  intros b d ok s s' H.
  cbn [os_makedirs os_path_exists Stub.world] in *.
  unfold Stub.makedirs in H. unfold Stub.exists_.
  destruct (Stub.mem d (map fst (Stub.files s))) eqn:Hf; [discriminate H|].
  destruct (Stub.mem d (Stub.dirs s)) eqn:Hd.
  - destruct ok; [|discriminate H]. injection H as <-.
    rewrite Hd. reflexivity.
  - injection H as <-.
    cbn [Stub.dirs Stub.mem existsb]. rewrite str_eqb_refl. reflexivity.
Qed.

Lemma parent_directory_created_before_save_witness :
  Stub.exists_ Stub.init (lit "out/x") = false /\
  (Stub.exists_ made (lit "out/x") = true /\
   In (Entry Stub.init (Makedirs (lit "out/x") true) (Returned VNone))
      (firstn 11 (calls (ChatterboxTts.exec (Stub.world Stub.well_behaved)
                           Stub.init nested)))) /\
  (Stub.exists_ made (lit "out/x") = true /\
   exists s_mk,
     In (Entry s_mk (Makedirs (lit "out/x") true) (Returned VNone))
        (firstn 9 (calls (RunChatterbox.exec (Stub.world Stub.well_behaved)
                            Stub.init nested)))).
Proof.
  assert (Hdir : os_path_dirname (Stub.world Stub.well_behaved)
                   (lit "out/x/a.wav") <> [])
    by (vm_compute; discriminate).
  destruct (@parent_directory_created_before_save _ _ _
              (Stub.world Stub.well_behaved) Stub.init nested
              (lit "out/x/a.wav")
              (stub_makedirs_creates Stub.well_behaved) eq_refl Hdir)
    as [[_ H1] [_ H2]].
  split; [reflexivity|]. split.
  - destruct (H1 (firstn 11 (calls (ChatterboxTts.exec
                                      (Stub.world Stub.well_behaved)
                                      Stub.init nested)))
                 made (lit "out/x/a.wav") (lit "hello") 24000%Z
                 (Returned VNone)
                 (skipn 12 (calls (ChatterboxTts.exec
                                     (Stub.world Stub.well_behaved)
                                     Stub.init nested))))
      as (_ & Hthere & Hmade).
    + vm_compute. reflexivity.
    + split; [exact Hthere|]. apply (Hmade Stub.init). find_entry.
  - destruct (H2 (firstn 9 (calls (RunChatterbox.exec
                                     (Stub.world Stub.well_behaved)
                                     Stub.init nested)))
                 made (lit "out/x/a.wav") (lit "hello") 24000%Z
                 (Returned VNone)
                 (skipn 10 (calls (RunChatterbox.exec
                                     (Stub.world Stub.well_behaved)
                                     Stub.init nested))))
      as (_ & Hthere & Hmade).
    + vm_compute. reflexivity.
    + split; [exact Hthere | exact Hmade].
Defined.

(** ** Checking the output *)

(** A printed line that is not a success line. *)
Ltac other_line H := vm_compute in H; discriminate H.

(** C8.  In the second script, once [save] has returned, the file is
    looked for at the output path in the world [save] left.  If it is not
    there, nothing else is asked, the last line printed is the
    file-not-created error and the exit status is 1.  If it is there and
    its size can be read, the size is the only other thing asked, the last
    line printed is the success line with that size and the path, and the
    exit status is 0.  And a success line is printed only then: any printed
    line that starts as a success line is the one for a size read after a
    [save] that returned and a check that found the file. *)
Theorem success_only_after_verification :
  forall (St Model Wav : Type) (w : World St Model Wav) (s : St)
         (argv : list str),
    (forall l1 s_sv p a z v l2,
        calls (RunChatterbox.exec w s argv)
          = l1 ++ Entry s_sv (Save p a z) (Returned v) :: l2 ->
        exists s_after,
          torchaudio_save w p a z s_sv = (inr tt, s_after) /\
          nth_error argv 2 = Some p /\
          (os_path_exists w s_after p = false ->
           l2 = [Entry s_after (PathExists p) (Returned (VBool false))] /\
           last (printed (RunChatterbox.exec w s argv)) []
             = file_not_created /\
           ended (RunChatterbox.exec w s argv) = Exit 1) /\
          (forall size,
              os_path_exists w s_after p = true ->
              os_path_getsize w s_after p = inr size ->
              l2 = [Entry s_after (PathExists p) (Returned (VBool true));
                    Entry s_after (Getsize p) (Returned (VInt size))] /\
              last (printed (RunChatterbox.exec w s argv)) []
                = success_line size p /\
              ended (RunChatterbox.exec w s argv) = Exit 0)) /\
    (forall line,
        In line (printed (RunChatterbox.exec w s argv)) ->
        starts_with (lit "[Chatterbox] SUCCESS") line = true ->
        exists s_sv p a z s_after size,
          In (Entry s_sv (Save p a z) (Returned VNone))
             (calls (RunChatterbox.exec w s argv)) /\
          torchaudio_save w p a z s_sv = (inr tt, s_after) /\
          In (Entry s_after (PathExists p) (Returned (VBool true)))
             (calls (RunChatterbox.exec w s argv)) /\
          os_path_exists w s_after p = true /\
          In (Entry s_after (Getsize p) (Returned (VInt size)))
             (calls (RunChatterbox.exec w s argv)) /\
          line = success_line size p).
Proof.
  intros St Model Wav w s argv.
  split.
  - by_arguments argv; symbolic_run;
      intros ? ? ? ? ? ? ? H; split_log H.
    all: (eexists; split; [eassumption|]; split; [reflexivity|]).
    all: (split; [intros Hno | intros size Hyes Hsize]; try same_answer;
           try same_answer; handlers; repeat split; reflexivity).
  - by_arguments argv; symbolic_run; handlers.
    all: (intros ? Hin Hpre; printed_line Hin; try other_line Hpre).
    all: (eexists _, _, _, _, _, _;
      split; [pick_entry|]; split; [eassumption|];
      split; [pick_entry|]; split; [eassumption|];
      split; [pick_entry|reflexivity]).
Qed.

Lemma success_only_after_verification_witness :
  (last (printed (RunChatterbox.exec (Stub.world Stub.well_behaved)
                    Stub.init plain)) []
     = success_line 54 (lit "out.wav") /\
   ended (RunChatterbox.exec (Stub.world Stub.well_behaved) Stub.init plain)
     = Exit 0) /\
  (last (printed (RunChatterbox.exec (Stub.world silent_save_stub)
                    Stub.init plain)) []
     = file_not_created /\
   ended (RunChatterbox.exec (Stub.world silent_save_stub) Stub.init plain)
     = Exit 1) /\
  (exists s_sv p a z s_after size,
      In (Entry s_sv (Save p a z) (Returned VNone))
         (calls (RunChatterbox.exec (Stub.world Stub.well_behaved)
                   Stub.init plain)) /\
      torchaudio_save (Stub.world Stub.well_behaved) p a z s_sv
        = (inr tt, s_after) /\
      In (Entry s_after (PathExists p) (Returned (VBool true)))
         (calls (RunChatterbox.exec (Stub.world Stub.well_behaved)
                   Stub.init plain)) /\
      os_path_exists (Stub.world Stub.well_behaved) s_after p = true /\
      In (Entry s_after (Getsize p) (Returned (VInt size)))
         (calls (RunChatterbox.exec (Stub.world Stub.well_behaved)
                   Stub.init plain)) /\
      success_line 54 (lit "out.wav") = success_line size p).
Proof.
  split; [|split].
  - destruct (proj1 (@success_only_after_verification _ _ _
                       (Stub.world Stub.well_behaved) Stub.init plain)
                (firstn 9 (calls (RunChatterbox.exec
                                    (Stub.world Stub.well_behaved)
                                    Stub.init plain)))
                Stub.init (lit "out.wav") (lit "hello") 24000%Z VNone
                (skipn 10 (calls (RunChatterbox.exec
                                    (Stub.world Stub.well_behaved)
                                    Stub.init plain))))
      as (s_after & Hsave & _ & _ & Hyes).
    + vm_compute. reflexivity.
    + vm_compute in Hsave. injection Hsave as <-.
      destruct (Hyes 54%Z eq_refl eq_refl) as (_ & Hline & Hexit).
      split; assumption.
  - destruct (proj1 (@success_only_after_verification _ _ _
                       (Stub.world silent_save_stub) Stub.init plain)
                (firstn 9 (calls (RunChatterbox.exec
                                    (Stub.world silent_save_stub)
                                    Stub.init plain)))
                Stub.init (lit "out.wav") (lit "hello") 24000%Z VNone
                (skipn 10 (calls (RunChatterbox.exec
                                    (Stub.world silent_save_stub)
                                    Stub.init plain))))
      as (s_after & Hsave & _ & Hno & _).
    + vm_compute. reflexivity.
    + vm_compute in Hsave. injection Hsave as <-.
      destruct (Hno eq_refl) as (_ & Hline & Hexit).
      split; assumption.
  - apply (proj2 (@success_only_after_verification _ _ _
                    (Stub.world Stub.well_behaved) Stub.init plain)
                 (success_line 54 (lit "out.wav"))).
    + vm_compute. auto 10.
    + reflexivity.
Defined.

(** * Further properties of the scripts *)

(** ** Failures *)

(** X1.  In both scripts a call that raises is the last call of the run:
    nothing is tried again and nothing else is asked of the collaborators,
    whatever was raised. *)
Theorem failing_call_is_last :
  forall (St Model Wav : Type) (w : World St Model Wav) (s : St)
         (argv : list str),
    (forall l1 s' c ex l2,
        calls (ChatterboxTts.exec w s argv)
          = l1 ++ Entry s' c (Raised ex) :: l2 ->
        l2 = []) /\
    (forall l1 s' c ex l2,
        calls (RunChatterbox.exec w s argv)
          = l1 ++ Entry s' c (Raised ex) :: l2 ->
        l2 = []).
Proof.
  intros St Model Wav w s argv.
  split.
  - by_arguments argv; symbolic_run;
      intros ? ? ? ? ? H; split_log H; reflexivity.
  - by_arguments argv; symbolic_run;
      intros ? ? ? ? ? H; split_log H; reflexivity.
Qed.

Lemma failing_call_is_last_witness :
  skipn 7 (calls (ChatterboxTts.exec (Stub.world failing_stub) Stub.init
                    plain_1)) = [] /\
  skipn 6 (calls (RunChatterbox.exec (Stub.world failing_stub) Stub.init
                    plain)) = [].
Proof.
  split.
  - apply (proj1 (@failing_call_is_last _ _ _ (Stub.world failing_stub)
                    Stub.init plain_1)
             (firstn 6 (calls (ChatterboxTts.exec (Stub.world failing_stub)
                                 Stub.init plain_1)))
             Stub.init
             (Generate 24000%Z (lit "hello") 0.5%float (Some 0.5%float))
             (Error RuntimeError (lit "shape mismatch"))).
    vm_compute. reflexivity.
  - apply (proj2 (@failing_call_is_last _ _ _ (Stub.world failing_stub)
                    Stub.init plain)
             (firstn 5 (calls (RunChatterbox.exec (Stub.world failing_stub)
                                 Stub.init plain)))
             Stub.init (Generate 24000%Z (lit "hello") 0.5%float None)
             (Error RuntimeError (lit "shape mismatch"))).
    vm_compute. reflexivity.
Defined.

(** The import of [warnings] is excluded, or it is the call at hand. *)
Ltac outside_try :=
  match goal with
  | H : ?c <> ?c |- _ => contradiction H; reflexivity
  | H : _ = ImportModule _ |- _ => discriminate H
  end.

(** X2.  What becomes of an [Exception] a collaborator raises, whichever
    call raised it.  In the first script the import of [warnings] stands
    before the [try]: what it raises ends the run uncaught, with nothing
    printed.  Every other call is inside the [try], and what it raises goes
    to the catch-all handler: the error line with the exception's message
    is the last line printed and the run exits with status 1 if stdout can
    take that line; if it cannot, the handler's own [print] raises and the
    run ends in that uncaught [UnicodeEncodeError] with no error line
    printed.  In the second script every call is inside the [try]: a
    [MemoryError] gets the fixed out-of-memory line and status 2, and any
    other [Exception] goes to the catch-all handler as in the first. *)
Theorem failure_reported_with_message :
  forall (St Model Wav : Type) (w : World St Model Wav) (s : St)
         (argv : list str) (s' : St) (c : call Model Wav) (ex : exn),
    isinstance ex Exception = true ->
    (In (Entry s' c (Raised ex)) (calls (ChatterboxTts.exec w s argv)) ->
     (c = ImportModule "warnings" ->
      ended (ChatterboxTts.exec w s argv) = Uncaught ex /\
      printed (ChatterboxTts.exec w s argv) = []) /\
     (c <> ImportModule "warnings" ->
      reported_or_lost w ex (ChatterboxTts.exec w s argv))) /\
    (In (Entry s' c (Raised ex)) (calls (RunChatterbox.exec w s argv)) ->
     if isinstance ex MemoryError
     then ended (RunChatterbox.exec w s argv) = Exit 2 /\
          last (printed (RunChatterbox.exec w s argv)) []
            = RunChatterbox.out_of_memory
     else reported_or_lost w ex (RunChatterbox.exec w s argv)).
Proof.
  intros St Model Wav w s argv s' c ex Hex.
  split.
  - by_arguments argv; symbolic_run; intros H; in_log H;
      (split; intros ?; try outside_try);
      handlers; try instance_clash;
      first [ split; reflexivity | report ].
  - by_arguments argv; symbolic_run; intros H; in_log H;
      handlers; try instance_clash;
      first [split; reflexivity | report].
Qed.

Lemma failure_reported_with_message_witness :
  (ended (ChatterboxTts.exec (Stub.world out_of_memory_stub) Stub.init
            plain_1) = Exit 1 /\
   last (printed (ChatterboxTts.exec (Stub.world out_of_memory_stub) Stub.init
                    plain_1)) []
     = error_line (Error MemoryError (lit "cannot allocate 1048576 bytes"))) /\
  (ended (RunChatterbox.exec (Stub.world failing_stub) Stub.init plain)
     = Exit 1 /\
   last (printed (RunChatterbox.exec (Stub.world failing_stub) Stub.init
                    plain)) []
     = error_line (Error RuntimeError (lit "shape mismatch"))) /\
  (ended (ChatterboxTts.exec (Stub.world ascii_stdout_failing_stub) Stub.init
            plain_1)
     = Uncaught (encode_error (Stub.world ascii_stdout_failing_stub)
                   (error_line (Error RuntimeError
                                  (lit "shape mismatch " ++ [8364%N])))) /\
   no_error_line
     (printed (ChatterboxTts.exec (Stub.world ascii_stdout_failing_stub)
                 Stub.init plain_1))).
Proof.
  split; [|split].
  - destruct (proj1 (@failure_reported_with_message _ _ _
                       (Stub.world out_of_memory_stub) Stub.init plain_1
                       Stub.init
                       (Generate 24000%Z (lit "hello") 0.5%float
                                 (Some 0.5%float))
                       (Error MemoryError
                              (lit "cannot allocate 1048576 bytes"))
                       eq_refl))
      as [_ Hin].
    + find_entry.
    + apply Hin; [discriminate | reflexivity].
  - apply (proj2 (@failure_reported_with_message _ _ _
                    (Stub.world failing_stub) Stub.init plain
                    Stub.init (Generate 24000%Z (lit "hello") 0.5%float None)
                    (Error RuntimeError (lit "shape mismatch")) eq_refl)).
    + find_entry.
    + reflexivity.
  - destruct (proj1 (@failure_reported_with_message _ _ _
                       (Stub.world ascii_stdout_failing_stub) Stub.init
                       plain_1 Stub.init
                       (Generate 24000%Z (lit "hello") 0.5%float
                                 (Some 0.5%float))
                       (Error RuntimeError (lit "shape mismatch " ++ [8364%N]))
                       eq_refl))
      as [_ Hin].
    + find_entry.
    + apply Hin; [discriminate | reflexivity].
Defined.

(** X3.  What is not an [Exception] is not caught: when a call raises a
    [KeyboardInterrupt] (or a [SystemExit]), neither script prints an
    error line, and the run ends with that exception (with its status, for
    a [SystemExit]). *)
Theorem non_exception_passes_through :
  forall (St Model Wav : Type) (w : World St Model Wav) (s : St)
         (argv : list str) (s' : St) (c : call Model Wav) (ex : exn),
    isinstance ex Exception = false ->
    (In (Entry s' c (Raised ex)) (calls (ChatterboxTts.exec w s argv)) ->
     ended (ChatterboxTts.exec w s argv) = status_of (Throw ex) /\
     forall line,
       In line (printed (ChatterboxTts.exec w s argv)) ->
       starts_with (lit "[Chatterbox] ERROR") line = false) /\
    (In (Entry s' c (Raised ex)) (calls (RunChatterbox.exec w s argv)) ->
     ended (RunChatterbox.exec w s argv) = status_of (Throw ex) /\
     forall line,
       In line (printed (RunChatterbox.exec w s argv)) ->
       starts_with (lit "[Chatterbox] ERROR") line = false).
Proof.
  intros St Model Wav w s argv s' c ex Hex.
  split.
  - by_arguments argv; symbolic_run; intros H; in_log H;
      handlers; try instance_clash; try class_clash;
      (split; [reflexivity|]);
      intros ? Hin; printed_line Hin; vm_compute; reflexivity.
  - by_arguments argv; symbolic_run; intros H; in_log H;
      handlers; try instance_clash; try class_clash;
      (split; [reflexivity|]);
      intros ? Hin; printed_line Hin; vm_compute; reflexivity.
Qed.

Lemma non_exception_passes_through_witness :
  ended (ChatterboxTts.exec (Stub.world interrupted_stub) Stub.init plain_1)
    = Uncaught (Error KeyboardInterrupt []) /\
  ended (RunChatterbox.exec (Stub.world interrupted_stub) Stub.init plain)
    = Uncaught (Error KeyboardInterrupt []).
Proof.
  split.
  - refine (proj1 (proj1 (@non_exception_passes_through _ _ _
                    (Stub.world interrupted_stub) Stub.init plain_1
                    Stub.init
                    (Generate 24000%Z (lit "hello") 0.5%float
                              (Some 0.5%float))
                    (Error KeyboardInterrupt []) eq_refl) _)).
    find_entry.
  - refine (proj1 (proj2 (@non_exception_passes_through _ _ _
                    (Stub.world interrupted_stub) Stub.init plain
                    Stub.init (Generate 24000%Z (lit "hello") 0.5%float None)
                    (Error KeyboardInterrupt []) eq_refl) _)).
    find_entry.
Defined.

(** ** From the model to the file *)

(** X4.  What is saved is what was generated: in both scripts every
    [save] call is given the waveform a [generate] call returned earlier
    in the run, and that call was made on the model [from_pretrained]
    returned.  The first script saves it at that model's own sample
    rate. *)
Theorem saved_waveform_is_generated :
  forall (St Model Wav : Type) (w : World St Model Wav) (s : St)
         (argv : list str),
    (forall l1 s_sv p a z r l2,
        calls (ChatterboxTts.exec w s argv)
          = l1 ++ Entry s_sv (Save p a z) r :: l2 ->
        exists s_ld dev m s_gen t x c,
          In (Entry s_ld (FromPretrained dev) (Returned (VModel m))) l1 /\
          In (Entry s_gen (Generate m t x c) (Returned (VWav a))) l1 /\
          z = model_sr w m) /\
    (forall l1 s_sv p a z r l2,
        calls (RunChatterbox.exec w s argv)
          = l1 ++ Entry s_sv (Save p a z) r :: l2 ->
        exists s_ld dev m s_gen t x c,
          In (Entry s_ld (FromPretrained dev) (Returned (VModel m))) l1 /\
          In (Entry s_gen (Generate m t x c) (Returned (VWav a))) l1).
Proof.
  intros St Model Wav w s argv.
  split.
  - by_arguments argv; symbolic_run;
      intros ? ? ? ? ? ? ? H; split_log H;
      eexists _, _, _, _, _, _, _;
      (split; [pick_entry|]; split; [pick_entry | reflexivity]).
  - by_arguments argv; symbolic_run;
      intros ? ? ? ? ? ? ? H; split_log H;
      eexists _, _, _, _, _, _, _;
      (split; pick_entry).
Qed.

Lemma saved_waveform_is_generated_witness :
  (exists s_ld dev m s_gen t x c,
      In (Entry s_ld (FromPretrained dev) (Returned (VModel m)))
         (firstn 9 (calls (ChatterboxTts.exec (Stub.world cuda_stub)
                             Stub.init plain_1))) /\
      In (Entry s_gen (Generate m t x c) (Returned (VWav (lit "hello"))))
         (firstn 9 (calls (ChatterboxTts.exec (Stub.world cuda_stub)
                             Stub.init plain_1))) /\
      16000%Z = model_sr (Stub.world cuda_stub) m).
Proof.
  apply (proj1 (@saved_waveform_is_generated _ _ _ (Stub.world cuda_stub)
                  Stub.init plain_1)
           (firstn 9 (calls (ChatterboxTts.exec (Stub.world cuda_stub)
                               Stub.init plain_1)))
           Stub.init (lit "out.wav") (lit "hello") 16000%Z (Returned VNone)
           (skipn 10 (calls (ChatterboxTts.exec (Stub.world cuda_stub)
                               Stub.init plain_1)))).
  vm_compute. reflexivity.
Defined.

(** An entry that neither looks for a file nor measures one. *)
Ltac no_check :=
  cbv beta delta [not]; cbn [what];
  split; intros; match goal with H : _ = _ |- _ => discriminate H end.

(** X5.  The first script takes [save] at its word: once [save] has
    returned, it never looks for the file.  If stdout can take the success
    line with the path, the script only reads the model's sample rate
    again, prints the success line and the sample-rate line, and ends with
    status 0 in the world [save] left.  If it cannot, the [print] raises
    inside the [try]: nothing else is asked, and the
    [UnicodeEncodeError] goes to the catch-all handler. *)
Theorem first_variant_reports_without_checking :
  forall (St Model Wav : Type) (w : World St Model Wav) (s : St)
         (argv : list str) l1 s_sv p a z v l2,
    calls (ChatterboxTts.exec w s argv)
      = l1 ++ Entry s_sv (Save p a z) (Returned v) :: l2 ->
    exists s_after,
      torchaudio_save w p a z s_sv = (inr tt, s_after) /\
      final (ChatterboxTts.exec w s argv) = s_after /\
      (forall e,
          In e l2 ->
          (forall q, what e <> PathExists q) /\
          (forall q, what e <> Getsize q)) /\
      (can_print w (saved_line p) = true ->
       exists m,
         l2 = [Entry s_after (ModelSr m) (Returned (VInt (model_sr w m)))] /\
         last (removelast (printed (ChatterboxTts.exec w s argv))) []
           = saved_line p /\
         last (printed (ChatterboxTts.exec w s argv)) []
           = sample_rate_line (model_sr w m) /\
         ended (ChatterboxTts.exec w s argv) = Exit 0) /\
      (can_print w (saved_line p) = false ->
       l2 = [] /\
       reported_or_lost w (encode_error w (saved_line p))
         (ChatterboxTts.exec w s argv)).
Proof.
  intros St Model Wav w s argv.
  by_arguments argv; symbolic_run;
    intros ? ? ? ? ? ? ? H; split_log H;
    eexists; (split; [eassumption|]);
    handlers; try instance_clash;
    (split; [reflexivity|]);
    (split; [each no_check|]);
    unfold saved_line in *;
    (split; intros ?; try print_clash);
    first [ eexists; repeat split; reflexivity
          | split; [reflexivity | report] ].
Qed.

(** With a [save] that leaves no file the first script still reports
    success. *)
Lemma first_variant_reports_without_checking_witness :
  ended (ChatterboxTts.exec (Stub.world silent_save_stub) Stub.init plain_1)
    = Exit 0 /\
  last (removelast (printed (ChatterboxTts.exec (Stub.world silent_save_stub)
                               Stub.init plain_1))) []
    = saved_line (lit "out.wav") /\
  Stub.exists_ (final (ChatterboxTts.exec (Stub.world silent_save_stub)
                         Stub.init plain_1))
               (lit "out.wav") = false.
Proof.
  destruct (@first_variant_reports_without_checking _ _ _
              (Stub.world silent_save_stub) Stub.init plain_1
              (firstn 9 (calls (ChatterboxTts.exec
                                  (Stub.world silent_save_stub) Stub.init
                                  plain_1)))
              Stub.init (lit "out.wav") (lit "hello") 24000%Z VNone
              (skipn 10 (calls (ChatterboxTts.exec
                                  (Stub.world silent_save_stub) Stub.init
                                  plain_1))))
    as (s_after & _ & _ & _ & Hok & _).
  - vm_compute. reflexivity.
  - destruct (Hok eq_refl) as (m & _ & Hline & _ & Hexit).
    split; [exact Hexit|]. split; [exact Hline|]. reflexivity.
Defined.

(** ** The directory, again *)

(** A name with no directory part has no directory to check. *)
Ltac bare_name :=
  match goal with
  | Hd : os_path_dirname _ _ = [], Ht : truthy _ = true |- _ =>
      exfalso; rewrite Hd in Ht; discriminate Ht
  end.

(** An entry that is neither an existence check nor a [makedirs] call. *)
Ltac no_directory_call :=
  cbv beta delta [not]; cbn [what];
  split; intros; match goal with H : _ = _ |- _ => discriminate H end.

(** X6.  For an output path with no directory part
    ([os.path.dirname] gives the empty string) the first script neither
    checks for a directory nor makes one, and the second script makes the
    current directory, ["."], with [exist_ok=True], before it saves. *)
Theorem bare_file_name_directory_calls :
  forall (St Model Wav : Type) (w : World St Model Wav) (s : St)
         (argv : list str) (out : str),
    nth_error argv 2 = Some out ->
    os_path_dirname w out = [] ->
    (forall e,
        In e (calls (ChatterboxTts.exec w s argv)) ->
        (forall p, what e <> PathExists p) /\
        (forall p ok, what e <> Makedirs p ok)) /\
    (forall l1 s_mk p ok r l2,
        calls (RunChatterbox.exec w s argv)
          = l1 ++ Entry s_mk (Makedirs p ok) r :: l2 ->
        p = lit "." /\ ok = true) /\
    (forall l1 s_sv p a z r l2,
        calls (RunChatterbox.exec w s argv)
          = l1 ++ Entry s_sv (Save p a z) r :: l2 ->
        exists s_mk l0,
          l1 = l0 ++ [Entry s_mk (Makedirs (lit ".") true) (Returned VNone)]).
Proof.
  intros St Model Wav w s argv out Hout Hdir.
  split.
  - by_arguments argv; cbn [nth_error] in Hout; try discriminate Hout;
      injection Hout as ->;
      symbolic_run; try bare_name; each no_directory_call.
  - by_arguments argv; cbn [nth_error] in Hout; try discriminate Hout;
      injection Hout as ->;
      symbolic_run; try bare_name;
      (split;
       [ intros ? ? ? ? ? ? H; split_log H; split; reflexivity
       | intros ? ? ? ? ? ? ? H; split_log H;
         eexists;
         match goal with
         | |- exists l0, ?l = l0 ++ [_] => exists (removelast l); reflexivity
         end ]).
Qed.

Lemma bare_file_name_directory_calls_witness :
  (forall p, ImportModule (Model := Z) (Wav := str) "torchaudio"
             <> PathExists p) /\
  (exists s_mk l0,
      firstn 9 (calls (RunChatterbox.exec (Stub.world Stub.well_behaved)
                         Stub.init plain))
        = l0 ++ [Entry s_mk (Makedirs (lit ".") true) (Returned VNone)]).
Proof.
  destruct (@bare_file_name_directory_calls _ _ _
              (Stub.world Stub.well_behaved) Stub.init plain (lit "out.wav")
              eq_refl eq_refl) as (Hfirst & _ & Hsecond).
  split.
  - apply (Hfirst (Entry Stub.init (ImportModule "torchaudio")
                         (Returned VNone))).
    unfold plain. find_entry.
  - apply (Hsecond
             (firstn 9 (calls (RunChatterbox.exec
                                 (Stub.world Stub.well_behaved)
                                 Stub.init plain)))
             Stub.init (lit "out.wav") (lit "hello") 24000%Z (Returned VNone)
             (skipn 10 (calls (RunChatterbox.exec
                                 (Stub.world Stub.well_behaved)
                                 Stub.init plain)))).
    vm_compute. reflexivity.
Defined.

(** X7.  The first script makes a directory only when it has just found
    it missing: every [makedirs] call it makes has [exist_ok=True], is on
    the non-empty directory part of the output path, and comes right
    after the check that answered false in the same world. *)
Theorem first_variant_makedirs_only_when_missing :
  forall (St Model Wav : Type) (w : World St Model Wav) (s : St)
         (argv : list str) l1 s_mk p ok r l2,
    calls (ChatterboxTts.exec w s argv)
      = l1 ++ Entry s_mk (Makedirs p ok) r :: l2 ->
    ok = true /\
    p <> [] /\
    (exists out, nth_error argv 2 = Some out /\ p = os_path_dirname w out) /\
    os_path_exists w s_mk p = false /\
    exists l0,
      l1 = l0 ++ [Entry s_mk (PathExists p) (Returned (VBool false))].
Proof.
  intros St Model Wav w s argv.
  by_arguments argv; symbolic_run;
    intros ? ? ? ? ? ? H; split_log H;
    (split; [reflexivity|]);
    (split; [apply truthy_true; assumption|]);
    (split; [eexists; split; reflexivity|]);
    (split; [assumption|]);
    match goal with
    | |- exists l0, ?l = l0 ++ [_] => exists (removelast l); reflexivity
    end.
Qed.

Lemma first_variant_makedirs_only_when_missing_witness :
  Stub.exists_ Stub.init (lit "out/x") = false /\
  (exists l0,
      firstn 9 (calls (ChatterboxTts.exec (Stub.world Stub.well_behaved)
                         Stub.init nested))
        = l0 ++ [Entry Stub.init (PathExists (lit "out/x"))
                       (Returned (VBool false))]).
Proof.
  destruct (@first_variant_makedirs_only_when_missing _ _ _
              (Stub.world Stub.well_behaved) Stub.init nested
              (firstn 9 (calls (ChatterboxTts.exec
                                  (Stub.world Stub.well_behaved)
                                  Stub.init nested)))
              Stub.init (lit "out/x") true (Returned VNone)
              (skipn 10 (calls (ChatterboxTts.exec
                                  (Stub.world Stub.well_behaved)
                                  Stub.init nested))))
    as (_ & _ & _ & Hmissing & l0 & Hbefore).
  - vm_compute. reflexivity.
  - split; [exact Hmissing | exists l0; exact Hbefore].
Defined.

(** ** The text shown *)

(** The text line at hand is the one of the statement. *)
Ltac text_shown :=
  unfold text_line, prefix in *; try print_clash.

(** X8.  The text line: the fixed label, then the first 50 characters
    (code points) of the text, then three dots.  Both scripts print it
    before the [try].  In the first script, once
    [warnings.filterwarnings] was called: if stdout can take the line, it
    is the second line printed; if it cannot, the [print] raises outside
    the [try], so the run ends in that uncaught [UnicodeEncodeError] with
    only the first line printed and nothing imported but [warnings].  In
    the second script, once the first collection pass was made: if stdout
    can take the line, it is the first line printed; if it cannot, the run
    ends in that uncaught [UnicodeEncodeError] with nothing printed and
    nothing else called. *)
Theorem text_line_shows_first_50 :
  forall (St Model Wav : Type) (w : World St Model Wav) (s : St)
         (argv : list str) (text : str),
    nth_error argv 1 = Some text ->
    ((exists s_f act a,
         In (Entry s_f (FilterWarnings act) a)
            (calls (ChatterboxTts.exec w s argv))) ->
     (can_print w (text_line text) = true ->
      nth_error (printed (ChatterboxTts.exec w s argv)) 1
        = Some (lit "[Chatterbox] Text: " ++ firstn 50 text ++ lit "...")) /\
     (can_print w (text_line text) = false ->
      ended (ChatterboxTts.exec w s argv)
        = Uncaught (encode_error w (text_line text)) /\
      printed (ChatterboxTts.exec w s argv)
        = [lit "[Chatterbox] Generating speech..."] /\
      exists s_i,
        calls (ChatterboxTts.exec w s argv)
          = [Entry s (ImportModule "warnings") (Returned VNone);
             Entry s_i (FilterWarnings "ignore") (Returned VNone)])) /\
    (calls (RunChatterbox.exec w s argv) <> [] ->
     (can_print w (text_line text) = true ->
      nth_error (printed (RunChatterbox.exec w s argv)) 0
        = Some (lit "[Chatterbox] Text: " ++ firstn 50 text ++ lit "...")) /\
     (can_print w (text_line text) = false ->
      ended (RunChatterbox.exec w s argv)
        = Uncaught (encode_error w (text_line text)) /\
      printed (RunChatterbox.exec w s argv) = [] /\
      calls (RunChatterbox.exec w s argv)
        = [Entry s GcCollect (Returned VNone)])).
Proof.
  intros St Model Wav w s argv text Htext.
  split.
  - by_arguments argv; cbn [nth_error] in Htext; try discriminate Htext;
      injection Htext as ->;
      symbolic_run; intros (? & ? & ? & Hin); in_log Hin;
      (split; intros ?; text_shown);
      handlers;
      first [ reflexivity
            | split; [reflexivity|]; split; [reflexivity|];
              eexists; reflexivity ].
  - by_arguments argv; cbn [nth_error] in Htext; try discriminate Htext;
      injection Htext as ->;
      symbolic_run; intros Hcalls;
      try (contradiction Hcalls; reflexivity);
      (split; intros ?; text_shown);
      handlers;
      first [ reflexivity | repeat split; reflexivity ].
Qed.

Lemma text_line_shows_first_50_witness :
  nth_error (printed (RunChatterbox.exec (Stub.world Stub.well_behaved)
                        Stub.init
                        [lit "run-chatterbox.py"; long_text; lit "out.wav"])) 0
    = Some (lit "[Chatterbox] Text: 01234567890123456789012345678901234567890123456789...") /\
  nth_error (printed (ChatterboxTts.exec (Stub.world Stub.well_behaved)
                        Stub.init
                        [lit "chatterbox-tts.py"; euro_text; lit "out.wav"])) 1
    = Some (lit "[Chatterbox] Text: 5 " ++ [8364%N] ++ lit "...") /\
  (ended (RunChatterbox.exec (Stub.world ascii_stdout_stub) Stub.init
            [lit "run-chatterbox.py"; euro_text; lit "out.wav"])
     = Uncaught (encode_error (Stub.world ascii_stdout_stub)
                   (text_line euro_text)) /\
   calls (RunChatterbox.exec (Stub.world ascii_stdout_stub) Stub.init
            [lit "run-chatterbox.py"; euro_text; lit "out.wav"])
     = [Entry Stub.init GcCollect (Returned VNone)]).
Proof.
  split; [|split].
  - refine (proj1 (proj2 (@text_line_shows_first_50 _ _ _
                            (Stub.world Stub.well_behaved) Stub.init
                            [lit "run-chatterbox.py"; long_text; lit "out.wav"]
                            long_text eq_refl) _) eq_refl).
    vm_compute. discriminate.
  - refine (proj1 (proj1 (@text_line_shows_first_50 _ _ _
                            (Stub.world Stub.well_behaved) Stub.init
                            [lit "chatterbox-tts.py"; euro_text; lit "out.wav"]
                            euro_text eq_refl) _) eq_refl).
    eexists _, _, _. find_entry.
  - assert (Hcalled : calls (RunChatterbox.exec (Stub.world ascii_stdout_stub)
                                Stub.init
                                [lit "run-chatterbox.py"; euro_text;
                                 lit "out.wav"]) <> [])
      by (vm_compute; discriminate).
    destruct (proj2 (proj2 (@text_line_shows_first_50 _ _ _
                              (Stub.world ascii_stdout_stub) Stub.init
                              [lit "run-chatterbox.py"; euro_text;
                               lit "out.wav"]
                              euro_text eq_refl) Hcalled) eq_refl)
      as (Hend & _ & Hcalls).
    split; [exact Hend | exact Hcalls].
Defined.

(** ** Memory and threads *)

(** An entry that is no collection pass and sets no thread count. *)
Ltac no_memory_call :=
  cbv beta delta [not]; cbn [what];
  split; intros; match goal with H : _ = _ |- _ => discriminate H end.

(** X9.  The second script bounds its memory before and after the model
    is used: every [from_pretrained] call comes after a collection pass
    and after [torch.set_num_threads(2)] has returned, and a [generate]
    that returns is followed at once by a collection pass, before
    anything is imported or written.  The first script never collects and
    never sets the thread count. *)
Theorem second_variant_bounds_memory :
  forall (St Model Wav : Type) (w : World St Model Wav) (s : St)
         (argv : list str),
    (forall l1 s_ld dev r l2,
        calls (RunChatterbox.exec w s argv)
          = l1 ++ Entry s_ld (FromPretrained dev) r :: l2 ->
        In (Entry s GcCollect (Returned VNone)) l1 /\
        exists s_th,
          In (Entry s_th (SetNumThreads 2) (Returned VNone)) l1) /\
    (forall l1 s_gen m t x c v l2,
        calls (RunChatterbox.exec w s argv)
          = l1 ++ Entry s_gen (Generate m t x c) (Returned v) :: l2 ->
        exists s_gc l3,
          l2 = Entry s_gc GcCollect (Returned VNone) :: l3) /\
    (forall e,
        In e (calls (ChatterboxTts.exec w s argv)) ->
        what e <> GcCollect /\ forall n, what e <> SetNumThreads n).
Proof.
  intros St Model Wav w s argv.
  apply and_assoc. split.
  - by_arguments argv; symbolic_run;
      (split;
       [ intros ? ? ? ? ? H; split_log H;
         (split; [pick_entry | eexists; pick_entry])
       | intros ? ? ? ? ? ? ? ? H; split_log H;
         eexists _, _; reflexivity ]).
  - by_arguments argv; symbolic_run; each no_memory_call.
Qed.

Lemma second_variant_bounds_memory_witness :
  exists s_gc l3,
    skipn 6 (calls (RunChatterbox.exec (Stub.world Stub.well_behaved)
                      Stub.init plain))
      = Entry s_gc GcCollect (Returned VNone) :: l3.
Proof.
  apply (proj1 (proj2 (@second_variant_bounds_memory _ _ _
                         (Stub.world Stub.well_behaved) Stub.init plain))
           (firstn 5 (calls (RunChatterbox.exec
                               (Stub.world Stub.well_behaved)
                               Stub.init plain)))
           Stub.init 24000%Z (lit "hello") 0.5%float None
           (VWav (lit "hello"))).
  vm_compute. reflexivity.
Defined.

(** ** Imports *)

(** An entry that imports nothing, or one of the modules named. *)
Ltac known_module :=
  cbn [what];
  let H := fresh in
  intros H;
  first [discriminate H | injection H as <-; auto].

(** What [main] imports inside its [try], in either script: the model is
    only loaded after [torch] and [chatterbox.tts] were imported,
    [torchaudio] is only imported once [generate] has returned, and [save]
    is only called after that import. *)
Ltac import_order :=
  split;
  [ intros ? ? ? ? ? H; split_log H; eexists _, _; split; pick_entry
  | split;
    [ intros ? ? ? ? H; split_log H; eexists _, _, _, _, _, _; pick_entry
    | intros ? ? ? ? ? ? ? H; split_log H; eexists; pick_entry ]].

(** X10.  What [main] imports, and when.  The first script imports
    [warnings] as its first call, before the [try], and calls
    [warnings.filterwarnings] only right after that import has returned;
    besides it imports [torch], [chatterbox.tts] and [torchaudio] and
    nothing else.  The [main] of the second script imports these three and
    nothing else.  In both, the model is only loaded after [torch] and
    [chatterbox.tts] were imported, [torchaudio] is only imported once
    [generate] has returned, and [save] is only called after that import.
    So a missing [torchaudio] shows only after the audio was generated. *)
Theorem imports_precede_use :
  forall (St Model Wav : Type) (w : World St Model Wav) (s : St)
         (argv : list str),
    ((forall e name,
         In e (calls (ChatterboxTts.exec w s argv)) ->
         what e = ImportModule name ->
         name = "warnings" \/ name = "torch" \/ name = "chatterbox.tts" \/
         name = "torchaudio") /\
     (forall l1 s_f act a l2,
         calls (ChatterboxTts.exec w s argv)
           = l1 ++ Entry s_f (FilterWarnings act) a :: l2 ->
         l1 = [Entry s (ImportModule "warnings") (Returned VNone)]) /\
     (forall e name,
         In e (calls (RunChatterbox.exec w s argv)) ->
         what e = ImportModule name ->
         name = "torch" \/ name = "chatterbox.tts" \/ name = "torchaudio")) /\
    (forall r : run St Model Wav,
        r = ChatterboxTts.exec w s argv \/ r = RunChatterbox.exec w s argv ->
        (forall l1 s_ld dev a l2,
            calls r = l1 ++ Entry s_ld (FromPretrained dev) a :: l2 ->
            exists s1 s2,
              In (Entry s1 (ImportModule "torch") (Returned VNone)) l1 /\
              In (Entry s2 (ImportModule "chatterbox.tts") (Returned VNone))
                 l1) /\
        (forall l1 s_im a l2,
            calls r = l1 ++ Entry s_im (ImportModule "torchaudio") a :: l2 ->
            exists s_gen m t x c v,
              In (Entry s_gen (Generate m t x c) (Returned v)) l1) /\
        (forall l1 s_sv p a z v l2,
            calls r = l1 ++ Entry s_sv (Save p a z) v :: l2 ->
            exists s_im,
              In (Entry s_im (ImportModule "torchaudio") (Returned VNone))
                 l1)).
Proof.
  intros St Model Wav w s argv.
  split; [split; [|split]|].
  - by_arguments argv; symbolic_run;
      let e := fresh "e" in
      let name := fresh "name" in
      intros e name; revert e; each known_module.
  - by_arguments argv; symbolic_run;
      intros ? ? ? ? ? H; split_log H; reflexivity.
  - by_arguments argv; symbolic_run;
      let e := fresh "e" in
      let name := fresh "name" in
      intros e name; revert e; each known_module.
  - intros r [-> | ->].
    + by_arguments argv; symbolic_run; import_order.
    + by_arguments argv; symbolic_run; import_order.
Qed.

(** In the plain run of the first script the import of [torchaudio] is
    the eighth call, after [generate]. *)
Lemma imports_precede_use_witness :
  exists s_gen m t x c v,
    In (Entry s_gen (Generate m t x c) (Returned v))
       (firstn 7 (calls (ChatterboxTts.exec (Stub.world Stub.well_behaved)
                           Stub.init plain_1))).
Proof.
  apply (proj1 (proj2 (proj2 (@imports_precede_use _ _ _
                         (Stub.world Stub.well_behaved) Stub.init plain_1)
                         _ (or_introl eq_refl)))
           (firstn 7 (calls (ChatterboxTts.exec
                               (Stub.world Stub.well_behaved) Stub.init
                               plain_1)))
           Stub.init (Returned VNone)
           (skipn 8 (calls (ChatterboxTts.exec
                              (Stub.world Stub.well_behaved) Stub.init
                              plain_1)))).
  vm_compute. reflexivity.
Defined.

(** ** No second try *)

(** X11.  Neither script does anything twice: in every run the model is
    loaded at most once, [generate] is called at most once, at most one
    directory is made and [save] is called at most once. *)
Theorem at_most_one_call_of_each :
  forall (St Model Wav : Type) (w : World St Model Wav) (s : St)
         (argv : list str) (r : run St Model Wav),
    r = ChatterboxTts.exec w s argv \/ r = RunChatterbox.exec w s argv ->
    (count_calls is_from_pretrained (calls r) <= 1)%nat /\
    (count_calls is_generate (calls r) <= 1)%nat /\
    (count_calls is_makedirs (calls r) <= 1)%nat /\
    (count_calls is_save (calls r) <= 1)%nat.
Proof.
  intros St Model Wav w s argv r [-> | ->].
  - by_arguments argv; symbolic_run;
      cbv beta delta [count_calls];
      cbn [filter what is_from_pretrained is_generate is_makedirs is_save
           Datatypes.length];
      repeat split; lia.
  - by_arguments argv; symbolic_run;
      cbv beta delta [count_calls];
      cbn [filter what is_from_pretrained is_generate is_makedirs is_save
           Datatypes.length];
      repeat split; lia.
Qed.

Lemma at_most_one_call_of_each_witness :
  (count_calls is_save
     (calls (RunChatterbox.exec (Stub.world Stub.well_behaved) Stub.init
               plain)) <= 1)%nat /\
  count_calls is_save
    (calls (RunChatterbox.exec (Stub.world Stub.well_behaved) Stub.init
              plain)) = 1%nat.
Proof.
  split.
  - apply (@at_most_one_call_of_each _ _ _ (Stub.world Stub.well_behaved)
             Stub.init plain _ (or_intror eq_refl)).
  - reflexivity.
Defined.

(** ** Every way a run can end *)

(** What a raising call of the computed log raised, when every raising
    call raised an [Exception]. *)
Ltac raised_exception Hall :=
  try match type of Hall with
  | forall s' c ex, In _ ?l -> _ =>
      match l with
      | context [Raised ?e] =>
          assert (isinstance e Exception = true)
            by (eapply Hall; cbn [In]; eauto 20)
      end
  end.

(** The status of the ending at hand is one of those listed. *)
Ltac one_status :=
  cbn [exit_status];
  repeat match goal with
         | H : isinstance ?e ?c = _ |- context [isinstance ?e ?c] =>
             rewrite H
         end;
  cbn [isinstance issubclass subclass_within base_class class_eqb orb];
  first [ left; reflexivity
        | right; left; reflexivity
        | right; right; reflexivity
        | right; reflexivity ].

(** Where the uncaught exception at hand came from. *)
Ltac one_source :=
  cbv beta delta [float_error encode_error];
  let e := fresh "e" in
  let He := fresh "He" in
  intros e He;
  first [ discriminate He
        | injection He as <-;
          first [ left; eexists; reflexivity
                | right; left; eexists; reflexivity
                | right; eexists; reflexivity
                | right; right; eexists; pick_entry ] ].

(** X12.  How a run can end.  As long as the collaborators raise nothing
    but [Exception]s, the first script exits with status 0 or 1 and the
    second with status 0, 1 or 2, an exception nobody caught counting as
    the status 1 the interpreter gives it.  What can go uncaught is the
    [ValueError] of a numeric argument that does not parse, the
    [UnicodeEncodeError] of a [print] that stdout cannot take and, in the
    first script, what the import of [warnings] raised. *)
Theorem endings_classified :
  forall (St Model Wav : Type) (w : World St Model Wav) (s : St)
         (argv : list str),
    ((forall s' c ex,
         In (Entry s' c (Raised ex)) (calls (ChatterboxTts.exec w s argv)) ->
         isinstance ex Exception = true) ->
     (exit_status (ended (ChatterboxTts.exec w s argv)) = Some 0%Z \/
      exit_status (ended (ChatterboxTts.exec w s argv)) = Some 1%Z) /\
     (forall e,
         ended (ChatterboxTts.exec w s argv) = Uncaught e ->
         (exists a, e = float_error w a) \/
         (exists line, e = encode_error w line) \/
         (exists s',
             In (Entry s' (ImportModule "warnings") (Raised e))
                (calls (ChatterboxTts.exec w s argv))))) /\
    ((forall s' c ex,
         In (Entry s' c (Raised ex)) (calls (RunChatterbox.exec w s argv)) ->
         isinstance ex Exception = true) ->
     (exit_status (ended (RunChatterbox.exec w s argv)) = Some 0%Z \/
      exit_status (ended (RunChatterbox.exec w s argv)) = Some 1%Z \/
      exit_status (ended (RunChatterbox.exec w s argv)) = Some 2%Z) /\
     (forall e,
         ended (RunChatterbox.exec w s argv) = Uncaught e ->
         (exists a, e = float_error w a) \/
         (exists line, e = encode_error w line))).
Proof.
  intros St Model Wav w s argv.
  split.
  - by_arguments argv; symbolic_run; intros Hall; raised_exception Hall;
      handlers; try instance_clash; (split; [one_status | one_source]).
  - by_arguments argv; symbolic_run; intros Hall; raised_exception Hall;
      handlers; try instance_clash; (split; [one_status | one_source]).
Qed.

Lemma endings_classified_witness :
  (exit_status (ended (RunChatterbox.exec (Stub.world out_of_memory_stub)
                         Stub.init plain)) = Some 0%Z \/
   exit_status (ended (RunChatterbox.exec (Stub.world out_of_memory_stub)
                         Stub.init plain)) = Some 1%Z \/
   exit_status (ended (RunChatterbox.exec (Stub.world out_of_memory_stub)
                         Stub.init plain)) = Some 2%Z) /\
  exit_status (ended (RunChatterbox.exec (Stub.world out_of_memory_stub)
                        Stub.init plain)) = Some 2%Z.
Proof.
  split; [|reflexivity].
  apply (proj2 (@endings_classified _ _ _ (Stub.world out_of_memory_stub)
                  Stub.init plain)).
  intros s' c ex Hin.
  vm_compute in Hin.
  repeat (destruct Hin as [Hin|Hin]); try contradiction; try discriminate Hin.
  injection Hin as <- <- <-. reflexivity.
Defined.
